(** * Epiphany e-server and e-hal shared-memory manager: a shallow embedding

    This development embeds in Rocq the parts of the Epiphany SDK that the
    specification talks about:
    - the host-side shared-memory manager ([e-hal/src/epiphany-shm-manager.c]),
    - the GDB RSP server of [e-server/src/GdbServer.cpp]: the matchpoint
      handlers, the single-step engine, the exception check, the File-I/O
      reply parser, the [qXfer:osdata] pagination and the running flag of the
      dispatcher.

    Machine integers are [Z] with their wrap-around written out; target
    memory is byte addressed; the matchpoint table is a [gmap] keyed by
    (matchpoint type, address). *)

From stdpp Require Import base gmap list strings.
From Stdlib Require Import ZArith Lia Ascii.

Open Scope Z_scope.

(** Unsigned 32-bit wrap-around ([unsigned int], [uint32_t] and, on the
    32-bit ARM host of the Parallella board, [size_t]). *)
Definition u32 (x : Z) : Z := x mod 2 ^ 32.

(* ------------------------------------------------------------------ *)
(** ** The shared-memory manager (epiphany-shm-manager.c, e_shm.h) *)

Module Shm.

Definition MAX_SHM_REGIONS : nat := 64.

(** [errno] values and the e-hal return codes. *)
Definition EINVAL : Z := 22.
Definition EEXIST : Z := 17.
Definition ENOMEM : Z := 12.
Definition E_OK : Z := 0.
Definition E_ERR : Z := -1.

(** [e_shmseg_t]. The virtual and physical addresses are the table base
    plus [offset]; they are outputs only and are not modelled. [offset] is
    kept relative to the heap (the source adds the constant
    [sizeof(e_shmtable_t)]). *)
Record e_shmseg := mk_shmseg {
  seg_name : string;
  seg_size : Z;
  seg_offset : Z
}.

(** [e_shmseg_pvt_t]. *)
Record e_shmseg_pvt := mk_shmseg_pvt {
  shm_seg : e_shmseg;
  refcnt : Z;
  valid : Z
}.

(** [e_shmtable_t]: the 64 region records and the heap bookkeeping. *)
Record e_shmtable := mk_shmtable {
  regions : list e_shmseg_pvt;
  free_space : Z;
  next_free_offset : Z
}.

(** Operations on the named semaphore guarding the table. *)
Inductive sem_op := SemWait | SemPost.

(** The process view: the mapped table, [errno], and the semaphore
    operations performed so far. *)
Record shm_env := mk_env {
  shm_table : e_shmtable;
  errno : Z;
  sem_log : list sem_op
}.

Definition set_table (t : e_shmtable) (e : shm_env) : shm_env :=
  mk_env t (errno e) (sem_log e).
Definition set_errno (v : Z) (e : shm_env) : shm_env :=
  mk_env (shm_table e) v (sem_log e).
Definition sem (o : sem_op) (e : shm_env) : shm_env :=
  mk_env (shm_table e) (errno e) (sem_log e ++ [o]).

(** [strncpy(region->shm_seg.name, name, sizeof(region->shm_seg.name))]. *)
Definition strncpy_name (name : string) : string := String.substring 0 256 name.

(** The loop [for (i = 0; i < MAX_SHM_REGIONS; ++i)] of
    [shm_lookup_region]: the first valid region whose name is [name]. *)
Fixpoint lookup_from (name : string) (rs : list e_shmseg_pvt) (i : nat)
    : option nat :=
  match rs with
  | [] => None
  | r :: rs' =>
      if (i <? MAX_SHM_REGIONS)%nat then
        if decide (valid r <> 0 /\ name = seg_name (shm_seg r)) then Some i
        else lookup_from name rs' (S i)
      else None
  end.

Definition shm_lookup_region (name : string) (t : e_shmtable) : option nat :=
  lookup_from name (regions t) 0.

(** The loop of [shm_alloc_region]: the first region that is not valid. *)
Fixpoint first_free (rs : list e_shmseg_pvt) (i : nat) : option nat :=
  match rs with
  | [] => None
  | r :: rs' =>
      if (i <? MAX_SHM_REGIONS)%nat then
        if decide (valid r = 0) then Some i else first_free rs' (S i)
      else None
  end.

(** [shm_alloc_region(name, size)]: bump allocation from
    [next_free_offset]; [free_space -= size] on an [unsigned int]. *)
Definition shm_alloc_region (name : string) (size : Z) (t : e_shmtable)
    : option (nat * e_shmtable) :=
  match first_free (regions t) 0 with
  | None => None
  | Some i =>
      match regions t !! i with
      | None => None
      | Some r =>
          let seg := mk_shmseg (strncpy_name name) size (next_free_offset t) in
          let r' := mk_shmseg_pvt seg (refcnt r) 1 in
          Some (i, mk_shmtable (<[i := r']> (regions t))
                               (u32 (free_space t - size))
                               (next_free_offset t + size))
      end
  end.

(** [shm_compact_heap()]: not yet implemented in the source. *)
Definition shm_compact_heap (t : e_shmtable) : e_shmtable := t.

(** [e_shm_alloc(name, size)]. [name] is [None] for a NULL pointer; the
    result is the index of the region whose segment is returned, [None]
    for NULL. The table pointer is the one set up by [e_shm_init]. *)
Definition e_shm_alloc (name : option string) (size : Z) (e : shm_env)
    : option nat * shm_env :=
  match name with
  | None => (None, set_errno EINVAL e)
  | Some nm =>
      if decide (size = 0) then (None, set_errno EINVAL e) else
      let e := sem SemWait e in
      let t := shm_table e in
      match shm_lookup_region nm t with
      | Some _ => (None, sem SemPost (set_errno EEXIST e))
      | None =>
          let t := if decide (size > free_space t) then shm_compact_heap t
                   else t in
          let e := set_table t e in
          if decide (size > free_space t) then
            (None, sem SemPost (set_errno ENOMEM e))
          else
            match shm_alloc_region nm size t with
            | None => (None, sem SemPost e)
            | Some (i, t') =>
                let rs := regions t' in
                let rs := match rs !! i with
                          | Some r => <[i := mk_shmseg_pvt (shm_seg r) 1 1]> rs
                          | None => rs
                          end in
                (Some i, sem SemPost
                   (set_table (mk_shmtable rs (free_space t')
                                           (next_free_offset t')) e))
            end
      end
  end.

(** [e_shm_attach(name)]. *)
Definition e_shm_attach (name : string) (e : shm_env) : option nat * shm_env :=
  let e := sem SemWait e in
  let t := shm_table e in
  match shm_lookup_region name t with
  | None => (None, sem SemPost e)
  | Some i =>
      match regions t !! i with
      | None => (None, sem SemPost e)
      | Some r =>
          let r' := mk_shmseg_pvt (shm_seg r) (u32 (refcnt r + 1)) (valid r) in
          (Some i, sem SemPost
             (set_table (mk_shmtable (<[i := r']> (regions t)) (free_space t)
                                     (next_free_offset t)) e))
      end
  end.

(** [e_shm_release(name)]: when [--region->refcnt] reaches 0 the source
    executes [tbl->free_space -= region->shm_seg.size] and clears [valid]. *)
Definition e_shm_release (name : string) (e : shm_env) : Z * shm_env :=
  let e := sem SemWait e in
  let t := shm_table e in
  match shm_lookup_region name t with
  | None => (E_ERR, sem SemPost e)
  | Some i =>
      match regions t !! i with
      | None => (E_ERR, sem SemPost e)
      | Some r =>
          let rc := u32 (refcnt r - 1) in
          let t' :=
            if decide (rc = 0) then
              mk_shmtable (<[i := mk_shmseg_pvt (shm_seg r) rc 0]> (regions t))
                          (u32 (free_space t - seg_size (shm_seg r)))
                          (next_free_offset t)
            else
              mk_shmtable (<[i := mk_shmseg_pvt (shm_seg r) rc (valid r)]> (regions t))
                          (free_space t) (next_free_offset t) in
          (E_OK, sem SemPost (set_table t' e))
      end
  end.

(** A table as the Epiphany driver initializes it: no valid region, the
    whole heap free. *)
Definition empty_region : e_shmseg_pvt :=
  mk_shmseg_pvt (mk_shmseg EmptyString 0 0) 0 0.

Definition init_table (capacity : Z) : e_shmtable :=
  mk_shmtable (repeat empty_region MAX_SHM_REGIONS) capacity 0.

Definition init_env (capacity : Z) : shm_env := mk_env (init_table capacity) 0 [].

(** [Σ size(valid regions)]. *)
Definition valid_size_sum (t : e_shmtable) : Z :=
  foldr (fun r acc => if decide (valid r <> 0) then seg_size (shm_seg r) + acc
                      else acc) 0 (regions t).

(** Operations of a client session. *)
Inductive shm_call :=
  | Alloc (name : string) (size : Z)
  | Release (name : string).

Definition run_call (e : shm_env) (c : shm_call) : shm_env :=
  match c with
  | Alloc nm sz => snd (e_shm_alloc (Some nm) sz e)
  | Release nm => snd (e_shm_release nm e)
  end.

Definition run_calls (e : shm_env) (cs : list shm_call) : shm_env :=
  foldl run_call e cs.

(** A slot that [shm_lookup_region] accepts for [name]. *)
Definition region_named (name : string) (r : e_shmseg_pvt) : Prop :=
  valid r <> 0 /\ name = seg_name (shm_seg r).

End Shm.

(* ------------------------------------------------------------------ *)
(** ** The GDB RSP server (GdbServer.cpp) *)

Module Gdb.

(** [getfield(x, hi, lo)]: bits [hi..lo] of [x]; [setfield(x, hi, lo, v)]
    replaces them by [v]. Bit-field form of [GdbServer::getfield] and
    [GdbServer::setfield]; [getfield_src] and [setfield_src] below are the
    source expressions, and the two forms are proved equal on the range the
    server uses them. *)
Definition getfield (x hi lo : Z) : Z :=
  Z.land (Z.shiftr x lo) (Z.ones (hi - lo + 1)).

Definition setfield (x hi lo v : Z) : Z :=
  Z.lor (Z.land x (Z.lnot (Z.shiftl (Z.ones (hi - lo + 1)) lo)))
        (Z.shiftl (Z.land v (Z.ones (hi - lo + 1))) lo).

(** [GdbServer::getfield(x, _lt, _rt)]:
    [(x & ((1 << (_lt + 1)) - 1)) >> _rt]. *)
Definition getfield_src (x lt rt : Z) : Z :=
  Z.shiftr (Z.land x (Z.shiftl 1 (lt + 1) - 1)) rt.

(** [GdbServer::setfield(uint32_t & x, _lt, _rt, uint32_t val)]:
    [mask = ((1 << (_lt - _rt + 1)) - 1) << _rt;
     x = (x & (~mask)) | (val << _rt);] on [uint32_t]. *)
Definition setfield_src (x lt rt val : Z) : Z :=
  let mask := u32 (Z.shiftl (Z.shiftl 1 (lt - rt + 1) - 1) rt) in
  u32 (Z.lor (Z.land x (u32 (Z.lnot mask))) (u32 (Z.shiftl val rt))).

(** Epiphany instruction encodings and lengths used by the server
    (ATDSP_* constants of GdbServer.h). *)
Definition ATDSP_BKPT_INSTR : Z := 0x1c2.
Definition ATDSP_BKPT_INSTLEN : Z := 2.
Definition ATDSP_TRAP_INSTR : Z := 0x3e2.
Definition ATDSP_TRAP_INSTLEN : Z := 2.
Definition ATDSP_INST32LEN : Z := 4.
Definition IDLE_OPCODE : Z := 0x1b2.

(** GDB target signal numbers. *)
Definition TARGET_SIGNAL_NONE : Z := 0.
Definition TARGET_SIGNAL_HUP : Z := 1.
Definition TARGET_SIGNAL_QUIT : Z := 3.
Definition TARGET_SIGNAL_ILL : Z := 4.
Definition TARGET_SIGNAL_TRAP : Z := 5.
Definition TARGET_SIGNAL_ABRT : Z := 6.
Definition TARGET_SIGNAL_FPE : Z := 8.
Definition TARGET_SIGNAL_BUS : Z := 10.

(** Matchpoint types ([MpType]). *)
Definition BP_MEMORY : Z := 0.
Definition BP_HARDWARE : Z := 1.
Definition WP_WRITE : Z := 2.
Definition WP_READ : Z := 3.
Definition WP_ACCESS : Z := 4.

(** Platform constants whose values are defined in headers outside the
    sources at hand: the number of IVT entries and the exception codes of
    STATUS[18:16]. *)
Record platform := mk_platform {
  ATDSP_NUM_ENTRIES_IN_IVT : Z;
  E_UNALIGMENT_LS : Z;
  E_FPU : Z;
  E_UNIMPL : Z
}.

(** *** Target state *)

(** A core as the server sees it through the target access layer:
    byte-addressed memory, the general-purpose registers and the special
    core registers the server reads. [halted] is the test of
    [isTargetInDebugState] on the DEBUG register. *)
Record core := mk_core {
  mem : Z -> Z;
  gpr : Z -> Z;
  pc : Z;
  status : Z;
  imask : Z;
  ilat : Z;
  iret : Z;
  halted : bool
}.

Definition upd (f : Z -> Z) (a v : Z) : Z -> Z :=
  fun x => if Z.eqb x a then v else f x.

(** [readMem16] / [writeMem16]: little-endian half-words. *)
Definition read16 (m : Z -> Z) (a : Z) : Z := m a + 256 * m (a + 1).

Definition write16 (m : Z -> Z) (a v : Z) : Z -> Z :=
  upd (upd m a (v mod 256)) (a + 1) ((v / 256) mod 256).

(** [readBurst(addr, buf, n)] and [writeBurst(addr, buf, n)]. *)
Definition read_burst (m : Z -> Z) (a : Z) (n : nat) : list Z :=
  map (fun k => m (a + Z.of_nat k)) (seq 0 n).

Fixpoint write_burst (m : Z -> Z) (a : Z) (buf : list Z) : Z -> Z :=
  match buf with
  | [] => m
  | b :: bs => write_burst (upd m a b) (a + 1) bs
  end.

Definition set_mem (m : Z -> Z) (c : core) : core :=
  mk_core m (gpr c) (pc c) (status c) (imask c) (ilat c) (iret c) (halted c).
Definition set_gpr (g : Z -> Z) (c : core) : core :=
  mk_core (mem c) g (pc c) (status c) (imask c) (ilat c) (iret c) (halted c).
Definition set_pc (v : Z) (c : core) : core :=
  mk_core (mem c) (gpr c) v (status c) (imask c) (ilat c) (iret c) (halted c).

(** The matchpoint table [MpHash], keyed by (type, address), holding the
    saved instruction. *)
Abbreviation mp_table := (gmap (Z * Z) Z).

(** The server: the target, the matchpoint table, the running flag, the
    IVT save buffer, the packets sent so far, the stored [osdata] process
    document, and a snapshot of the core at every resume (each write of
    RUN to DEBUGCMD). *)
Record server := mk_server {
  target : core;
  mpHash : mp_table;
  fIsTargetRunning : bool;
  fIVTSaveBuff : list Z;
  sent : list string;
  osProcessReply : string;
  resumed : list core
}.

Definition set_target (c : core) (s : server) : server :=
  mk_server c (mpHash s) (fIsTargetRunning s) (fIVTSaveBuff s) (sent s)
            (osProcessReply s) (resumed s).
Definition set_mp (t : mp_table) (s : server) : server :=
  mk_server (target s) t (fIsTargetRunning s) (fIVTSaveBuff s) (sent s)
            (osProcessReply s) (resumed s).
Definition set_running (b : bool) (s : server) : server :=
  mk_server (target s) (mpHash s) b (fIVTSaveBuff s) (sent s)
            (osProcessReply s) (resumed s).
Definition set_ivt_buf (b : list Z) (s : server) : server :=
  mk_server (target s) (mpHash s) (fIsTargetRunning s) b (sent s)
            (osProcessReply s) (resumed s).
Definition set_os_reply (d : string) (s : server) : server :=
  mk_server (target s) (mpHash s) (fIsTargetRunning s) (fIVTSaveBuff s)
            (sent s) d (resumed s).

(** [rsp->putPkt(pkt)]. *)
Definition putPkt (p : string) (s : server) : server :=
  mk_server (target s) (mpHash s) (fIsTargetRunning s) (fIVTSaveBuff s)
            (sent s ++ [p]) (osProcessReply s) (resumed s).

Definition readMem16 (s : server) (a : Z) : Z := read16 (mem (target s)) a.
Definition writeMem16 (a v : Z) (s : server) : server :=
  set_target (set_mem (write16 (mem (target s)) a v) (target s)) s.
Definition readPc (s : server) : Z := pc (target s).
Definition writePc (v : Z) (s : server) : server :=
  set_target (set_pc (u32 v) (target s)) s.
Definition readGpr (s : server) (n : Z) : Z := gpr (target s) n.
Definition writeGpr (n v : Z) (s : server) : server :=
  set_target (set_gpr (upd (gpr (target s)) n (u32 v)) (target s)) s.

(** [putBreakPointInstruction(bkpt_addr)]. *)
Definition putBreakPointInstruction (a : Z) (s : server) : server :=
  writeMem16 a ATDSP_BKPT_INSTR s.

(** [MpHash::lookup], [MpHash::add], [MpHash::remove].
    Modelled from the spec: the MpHash class is not among the sources; the
    spec describes the table as a mapping from (kind, address) to the saved
    opcode with unique keys, and removal as returning the saved opcode and
    deleting the entry. *)
Definition mp_lookup (ty a : Z) (t : mp_table) : option Z := t !! (ty, a).
Definition mp_add (ty a v : Z) (t : mp_table) : mp_table := <[(ty, a) := v]> t.
Definition mp_remove (ty a : Z) (t : mp_table) : option (Z * mp_table) :=
  match t !! (ty, a) with
  | Some v => Some (v, delete (ty, a) t)
  | None => None
  end.

(** *** Packets *)

Definition hexdigit (n : Z) : ascii :=
  if Z.ltb n 10 then ascii_of_nat (Z.to_nat (48 + n))
  else ascii_of_nat (Z.to_nat (87 + n)).

(** [Utils::hex2Char]: the lower-case hex digit of a nibble. *)
Definition hex2Char (n : Z) : ascii := hexdigit (n mod 16).

(** Decimal notation of a natural number ([sprintf "%d"], [intStr]). *)
Fixpoint dec_digits (fuel : nat) (n : Z) (acc : string) : string :=
  match fuel with
  | O => acc
  | S f =>
      let acc' := String (hexdigit (n mod 10)) acc in
      if Z.ltb n 10 then acc' else dec_digits f (n / 10) acc'
  end.

Definition dec_of_Z (n : Z) : string := dec_digits 20 n EmptyString.

(** Stop packets: [S] or [T] followed by two hex digits. *)
Definition is_hex_ascii (c : ascii) : bool :=
  let n := Z.of_nat (nat_of_ascii c) in
  (Z.leb 48 n && Z.leb n 57) || (Z.leb 97 n && Z.leb n 102)
  || (Z.leb 65 n && Z.leb n 70).

Definition is_stop_packet (p : string) : bool :=
  match p with
  | String c (String h1 (String h2 _)) =>
      (bool_decide (c = "S"%char) || bool_decide (c = "T"%char))
      && is_hex_ascii h1 && is_hex_ascii h2
  | _ => false
  end.

(** [rspReportException(stoppedPC, threadID, exCause)] for [threadID == 0]:
    the packet [S<hh>], then [fIsTargetRunning = false]. *)
Definition rspReportException (stoppedPC threadID exCause : Z) (s : server)
    : server :=
  let p :=
    if Z.eqb threadID 0 then
      String "S" (String (hex2Char (exCause / 16))
                   (String (hex2Char (exCause mod 16)) EmptyString))
    else ("T05thread:" ++ dec_of_Z threadID ++ ";")%string in
  set_running false (putPkt p s).

(** [targetResume()]: write RUN to DEBUGCMD and set the running flag. *)
Definition targetResume (s : server) : server :=
  mk_server (target s) (mpHash s) true (fIVTSaveBuff s) (sent s)
            (osProcessReply s) (resumed s ++ [target s]).

(** *** Instruction decoding and exception state *)

(** [is32BitsInstr(iab_instr)]. *)
Definition is32BitsInstr (iab_instr : Z) : bool :=
  let de_extended_instr := Z.eqb (getfield iab_instr 3 0) 0xf in
  let de_regi := Z.eqb (getfield iab_instr 2 0) 3 in
  let de_regi_long := de_regi && Z.eqb (getfield iab_instr 3 3) 1 in
  let de_loadstore := Z.eqb (getfield iab_instr 2 0) 0x4
                      || Z.eqb (getfield iab_instr 1 0) 1 in
  let de_loadstore_long := de_loadstore && Z.eqb (getfield iab_instr 3 3) 1 in
  let de_branch := Z.eqb (getfield iab_instr 2 0) 0 in
  let de_branch_long_sel := de_branch && Z.eqb (getfield iab_instr 3 3) 1 in
  de_extended_instr || de_loadstore_long || de_regi_long || de_branch_long_sel.

Section Platform.
Variable P : platform.

(** [isTargetExceptionState(exCause)] on the value [coreStatus] read from
    STATUS: the boolean result and the (in/out) [exCause]. *)
Definition isTargetExceptionState (coreStatus exCause : Z) : bool * Z :=
  let exStat := getfield coreStatus 18 16 in
  if Z.eqb exStat 0 then (false, exCause)
  else
    let c := TARGET_SIGNAL_ABRT in
    let c := if Z.eqb exStat (E_UNALIGMENT_LS P) then TARGET_SIGNAL_BUS else c in
    let c := if Z.eqb exStat (E_FPU P) then TARGET_SIGNAL_FPE else c in
    let c := if Z.eqb exStat (E_UNIMPL P) then TARGET_SIGNAL_ILL else c in
    (true, c).

End Platform.

(** *** [sscanf] conversions used by the packet parsers *)

Definition is_space (c : ascii) : bool :=
  let n := nat_of_ascii c in (n =? 32)%nat || ((9 <=? n) && (n <=? 13))%nat.

Fixpoint skip_ws (p : string) : string :=
  match p with
  | String c r => if is_space c then skip_ws r else p
  | EmptyString => p
  end.

Definition hex_value (c : ascii) : option Z :=
  let n := Z.of_nat (nat_of_ascii c) in
  if Z.leb 48 n && Z.leb n 57 then Some (n - 48)
  else if Z.leb 97 n && Z.leb n 102 then Some (n - 87)
  else if Z.leb 65 n && Z.leb n 70 then Some (n - 55)
  else None.

(** The hex digits at the head of [p], accumulated in [acc]. *)
Fixpoint hex_run (p : string) (acc : Z) : Z * string :=
  match p with
  | String c r =>
      match hex_value c with
      | Some d => hex_run r (16 * acc + d)
      | None => (acc, p)
      end
  | EmptyString => (acc, p)
  end.

Definition starts_hex (p : string) : bool :=
  match p with
  | String c _ => if hex_value c then true else false
  | EmptyString => false
  end.

(** A [%x] / [%lx] conversion into a 32-bit unsigned (the server host is a
    32-bit ARM): leading white space, an optional sign, an optional [0x]
    prefix and at least one hex digit, with the [strtoul] treatment of the
    sign and of overflow. *)
Definition scan_sign (p : string) : bool * string :=
  match p with
  | String "-" r => (true, r)
  | String "+" r => (false, r)
  | _ => (false, p)
  end.

Definition skip_0x (p : string) : string :=
  match p with
  | String "0" (String x r) =>
      if (bool_decide (x = "x"%char) || bool_decide (x = "X"%char))
         && starts_hex r then r else p
  | _ => p
  end.

Definition scan_hex (p : string) : option (Z * string) :=
  let '(neg, p) := scan_sign (skip_ws p) in
  let p := skip_0x p in
  if starts_hex p then
    let '(v, r) := hex_run p 0 in
    Some (if Z.leb (2 ^ 32) v then 2 ^ 32 - 1
          else if neg then u32 (- v) else v, r)
  else None.

(** A [%1d] conversion: one decimal digit after optional white space. *)
Definition scan_1d (p : string) : option (Z * string) :=
  match skip_ws p with
  | String c r =>
      let n := Z.of_nat (nat_of_ascii c) in
      if Z.leb 48 n && Z.leb n 57 then Some (n - 48, r) else None
  | EmptyString => None
  end.

(** A literal character of the format. *)
Definition scan_lit (c : ascii) (p : string) : option string :=
  match p with
  | String c' r => if bool_decide (c = c') then Some r else None
  | EmptyString => None
  end.

(** [sscanf(data, "<lead>%1d,%x,%1d", &type, &addr, &len) == 3]. *)
Definition scan_matchpoint (lead : ascii) (p : string) : option (Z * Z * Z) :=
  match scan_lit lead p with
  | None => None
  | Some p =>
    match scan_1d p with
    | None => None
    | Some (ty, p) =>
      match scan_lit "," p with
      | None => None
      | Some p =>
        match scan_hex p with
        | None => None
        | Some (addr, p) =>
          match scan_lit "," p with
          | None => None
          | Some p =>
            match scan_1d p with
            | None => None
            | Some (len, _) => Some (ty, addr, len)
            end
          end
        end
      end
    end
  end.

(** The conversions made by [sscanf(data, "F%lx,%lx", ...)]. *)
Definition scan_F2 (p : string) : list Z :=
  match scan_lit "F" p with
  | None => []
  | Some p =>
    match scan_hex p with
    | None => []
    | Some (r, p) =>
      match scan_lit "," p with
      | None => [r]
      | Some p =>
        match scan_hex p with
        | None => [r]
        | Some (e, _) => [r; e]
        end
      end
    end
  end.

(** The conversions made by [sscanf(data, "F%lx", ...)]. *)
Definition scan_F1 (p : string) : list Z :=
  match scan_lit "F" p with
  | None => []
  | Some p =>
    match scan_hex p with
    | None => []
    | Some (r, _) => [r]
    end
  end.

(** *** Matchpoint packets *)

(** [rspInsertMatchpoint()] on the received packet [p]. *)
Definition rspInsertMatchpoint (p : string) (s : server) : server :=
  match scan_matchpoint "Z" p with
  | None => putPkt "E01" s
  | Some (ty, addr, _) =>
      if Z.eqb ty BP_MEMORY then
        let bpMemVal := readMem16 s addr in
        let s := set_mp (mp_add ty addr bpMemVal (mpHash s)) s in
        let s := putBreakPointInstruction addr s in
        putPkt "OK" s
      else if Z.leb 1 ty && Z.leb ty 4 then putPkt EmptyString s
      else putPkt "E01" s
  end.

(** [rspRemoveMatchpoint()] on the received packet [p]. *)
Definition rspRemoveMatchpoint (p : string) (s : server) : server :=
  match scan_matchpoint "z" p with
  | None => putPkt "E01" s
  | Some (ty, addr, _) =>
      if Z.eqb ty BP_MEMORY then
        let s := match mp_remove ty addr (mpHash s) with
                 | Some (instr, t) => writeMem16 addr instr (set_mp t s)
                 | None => s
                 end in
        putPkt "OK" s
      else if Z.leb 1 ty && Z.leb ty 4 then putPkt EmptyString s
      else putPkt "E01" s
  end.

(** *** File-I/O reply *)

(** [rspFileIOreply()] on the received packet [p]. *)
Definition rspFileIOreply (p : string) (s : server) : server :=
  match scan_F2 p with
  | [r; e] => writeGpr 3 e (writeGpr 0 r s)
  | _ =>
      match scan_F1 p with
      | [r] => writeGpr 0 r s
      | _ => s
      end
  end.

(** *** [qXfer:osdata:read] *)

(** [RspPacket::packStr] and [RspPacket::packNStr(str, len, lead)].
    Modelled from the spec: the RspPacket class is not among the sources;
    the spec describes the paginated reply as the lead character [m] or [l]
    followed by the requested part of the document. *)
Definition packStr (p : string) : string := p.
Definition packNStr (str : string) (slen : nat) (lead : ascii) : string :=
  String lead (String.substring 0 slen str).

(** The pagination shared by [rspOsDataProcesses], [rspOsDataLoad] and
    [rspOsDataTraffic]: the reply for the document [reply] (of [len]
    characters), [offset] and [length]. *)
Definition osdata_reply (reply : string) (offset length : nat) : string :=
  let len := String.length reply in
  if (len <=? offset)%nat then packStr "l"
  else
    let pktlen := (len - offset)%nat in
    if (length <? pktlen)%nat then
      packNStr (String.substring offset (String.length reply - offset) reply)
               length "m"
    else
      packNStr (String.substring offset (String.length reply - offset) reply)
               pktlen "l".

Definition nl : string := String (ascii_of_nat 10) EmptyString.
Definition dq : string := String (ascii_of_nat 34) EmptyString.

(** [intStr(val)]: decimal. *)
Definition intStr (v : Z) : string := dec_of_Z v.

Fixpoint join_cores (cores : list Z) : string :=
  match cores with
  | [] => EmptyString
  | [c] => intStr c
  | c :: cs => (intStr c ++ ", " ++ join_cores cs)%string
  end.

(** The document built by [rspOsDataProcesses] when [offset == 0]. *)
Definition process_document (cores : list Z) : string :=
  ("<?xml version=" ++ dq ++ "1.0" ++ dq ++ "?>" ++ nl ++
   "<!DOCTYPE target SYSTEM " ++ dq ++ "osdata.dtd" ++ dq ++ ">" ++ nl ++
   "<osdata type=" ++ dq ++ "processes" ++ dq ++ ">" ++ nl ++
   "  <item>" ++ nl ++
   "    <column name=" ++ dq ++ "pid" ++ dq ++ ">1</column>" ++ nl ++
   "    <column name=" ++ dq ++ "user" ++ dq ++ ">root</column>" ++ nl ++
   "    <column name=" ++ dq ++ "command" ++ dq ++ "></column>" ++ nl ++
   "    <column name=" ++ dq ++ "cores" ++ dq ++ ">" ++ nl ++
   "      " ++ join_cores cores ++ nl ++
   "    </column>" ++ nl ++
   "  </item>" ++ nl ++
   "  </osdata>")%string.

(** [rspOsDataProcesses(offset, length)] with [cores] the list returned by
    [listCoreIds()]: the document is rebuilt at offset 0 and kept in
    [osProcessReply] for the following parts. *)
Definition rspOsDataProcesses (cores : list Z) (offset length : nat)
    (s : server) : server :=
  let s := if (offset =? 0)%nat then set_os_reply (process_document cores) s
           else s in
  putPkt (osdata_reply (osProcessReply s) offset length) s.

(** *** The single-step engine *)

(** The change-of-flow target computed by [rspStep(addr, except)] from the
    opcode [op], its extension [ext], the PC [pc_] and the sequential
    breakpoint address [bkpt_addr]. *)
Definition jump_target (op ext pc_ bkpt_addr : Z) (is32 : bool) (s : server)
    : Z :=
  let j := bkpt_addr in
  let j :=
    if Z.eqb (getfield op 2 0) 0 then
      let immExt := setfield 0 7 0 (getfield op 15 8) in
      let immExt :=
        if is32 then
          let i := setfield immExt 23 8 (getfield ext 15 0) in
          if Z.eqb (getfield i 23 23) 1 then setfield i 31 24 0xff else i
        else if Z.eqb (getfield immExt 7 7) 1 then setfield immExt 31 8 0xffffff
        else immExt in
      u32 (pc_ + immExt * 2)
    else j in
  let j := if Z.eqb (getfield op 8 0) 0x1d2 then iret (target s) else j in
  let j := if Z.eqb (getfield op 8 0) 0x142 || Z.eqb (getfield op 8 0) 0x152
           then readGpr s (getfield op 12 10) else j in
  let j := if Z.eqb (getfield op 8 0) 0x14f || Z.eqb (getfield op 8 0) 0x15f
           then readGpr s (Z.lor (Z.shiftl (getfield ext 12 10) 3)
                                 (getfield op 12 10))
           else j in
  j.

(** Plant a hidden breakpoint at [a]: the original instruction is saved in
    the table only if there is no entry for [a] yet, then BKPT is written. *)
Definition plant_hidden (a : Z) (s : server) : server :=
  let s := match mp_lookup BP_MEMORY a (mpHash s) with
           | None => set_mp (mp_add BP_MEMORY a (readMem16 s a) (mpHash s)) s
           | Some _ => s
           end in
  putBreakPointInstruction a s.

(** Remove a hidden breakpoint at [a]:
    [assert (mpHash->remove (BP_MEMORY, a, &instr_saved))] then the saved
    instruction is written back; a failed assertion aborts ([None]). *)
Definition remove_hidden (a : Z) (s : server) : option server :=
  match mp_remove BP_MEMORY a (mpHash s) with
  | Some (instr_saved, t) => Some (writeMem16 a instr_saved (set_mp t s))
  | None => None
  end.

Section Step.
Variable P : platform.

(** The trap redirection [redirectSdioOnTrap(trapNumber)], used by the
    step engine only for a TRAP instruction at the PC; the step claims are
    about the other paths. *)
Variable redirectSdioOnTrap : Z -> server -> server.

(** The target between the write of RUN to DEBUGCMD and the moment the
    polling loop [while (true) if (isTargetInDebugState ()) break;] sees it
    halted. *)
Variable run : core -> core.

(** [sizeof (fIVTSaveBuff)]: the whole IVT. *)
Definition ivt_bytes : nat := Z.to_nat (ATDSP_NUM_ENTRIES_IN_IVT P * ATDSP_INST32LEN).

(** [saveIVT()] and [restoreIVT()]: one burst each. *)
Definition saveIVT (s : server) : server :=
  set_ivt_buf (read_burst (mem (target s)) 0 ivt_bytes) s.

Definition restoreIVT (s : server) : server :=
  set_target (set_mem (write_burst (mem (target s)) 0 (fIVTSaveBuff s))
                      (target s)) s.

(** [for (unsigned i = 1; i < ATDSP_NUM_ENTRIES_IN_IVT; i++)] planting
    BKPT at [i * ATDSP_INST32LEN] unless [skip] holds there. *)
Definition plant_ivt (skip : Z -> bool) (s : server) : server :=
  foldl (fun s i =>
           let a := Z.of_nat i * ATDSP_INST32LEN in
           if skip a then s else putBreakPointInstruction a s)
        s (seq 1 (Z.to_nat (ATDSP_NUM_ENTRIES_IN_IVT P) - 1)).

(** [targetResume()] followed by the halt-polling loop ([None] if the
    target never halts). *)
Definition resume_and_wait (s : server) : option server :=
  let s := targetResume s in
  let c := run (target s) in
  if halted c then Some (set_target c s) else None.

(** [rspStep(addr, except)]. [None] stands for the process exiting
    ([exit (8)] or a failed assertion) or never returning. *)
Definition rspStep (addr : Z) (s : server) : option server :=
  if negb (halted (target s)) then None else
  let reportedPc := readPc s in
  let '(isExState, exCause) :=
    isTargetExceptionState P (status (target s)) TARGET_SIGNAL_NONE in
  if isExState then Some (rspReportException reportedPc 0 exCause s) else
  let instrOpcode := readMem16 s reportedPc in
  if Z.eqb (getfield instrOpcode 8 0) IDLE_OPCODE then
    let coreStatus := status (target s) in
    let imaskReg := imask (target s) in
    let ilatReg := ilat (target s) in
    let os :=
      if Z.eqb (getfield coreStatus 1 1) 0
         && negb (Z.eqb (Z.land (Z.lnot imaskReg) ilatReg) 0) then
        let s := saveIVT s in
        let s := plant_ivt (fun _ => false) s in
        match resume_and_wait s with
        | Some s => Some (restoreIVT s)
        | None => None
        end
      else Some s in
    match os with
    | None => None
    | Some s =>
        let pc_ := u32 (readPc s - ATDSP_BKPT_INSTLEN) in
        let s := writePc pc_ s in
        Some (rspReportException pc_ 0 TARGET_SIGNAL_TRAP s)
    end
  else if Z.eqb (getfield instrOpcode 9 0) ATDSP_TRAP_INSTR then
    let s := set_running false s in
    let s := redirectSdioOnTrap (getfield instrOpcode 15 10) s in
    Some (writePc (addr + ATDSP_TRAP_INSTLEN) s)
  else
  let s := writePc addr s in
  let pc_ := readPc s in
  if negb (Z.eqb addr pc_) then None else
  let instrOpcode := readMem16 s pc_ in
  let instrExt := readMem16 s (pc_ + 2) in
  let is32 := is32BitsInstr instrOpcode in
  let bkpt_addr := u32 (addr + 2) in
  let bkpt_addr := if is32 then u32 (bkpt_addr + 2) else bkpt_addr in
  let s := plant_hidden bkpt_addr s in
  let bkpt_jump_addr := jump_target instrOpcode instrExt pc_ bkpt_addr is32 s in
  let s := if Z.eqb bkpt_jump_addr bkpt_addr then s
           else plant_hidden bkpt_jump_addr s in
  let s := saveIVT s in
  let s := plant_ivt (fun a => Z.eqb pc_ a) s in
  match resume_and_wait s with
  | None => None
  | Some s =>
    let s := restoreIVT s in
    let prevPc := u32 (readPc s - ATDSP_BKPT_INSTLEN) in
    if negb (bool_decide (mp_lookup BP_MEMORY prevPc (mpHash s) <> None)
             || Z.eqb ATDSP_BKPT_INSTR (readMem16 s bkpt_jump_addr))
    then None else
    let s := writePc prevPc s in
    match remove_hidden bkpt_addr s with
    | None => None
    | Some s =>
      let os := if Z.eqb bkpt_jump_addr bkpt_addr then Some s
                else remove_hidden bkpt_jump_addr s in
      match os with
      | None => None
      | Some s => Some (rspReportException prevPc 0 TARGET_SIGNAL_TRAP s)
      end
    end
  end.

End Step.

(** *** Packets built from hex digit strings *)

(** The strings made of hex digits only, and their value. *)
Fixpoint all_hex (d : string) : bool :=
  match d with
  | String c r => if hex_value c then all_hex r else false
  | EmptyString => true
  end.

Fixpoint hex_digits_val (d : string) (acc : Z) : Z :=
  match d with
  | String c r =>
      hex_digits_val r (16 * acc + match hex_value c with
                                   | Some v => v
                                   | None => 0
                                   end)
  | EmptyString => acc
  end.

(** An optional minus sign. *)
Definition sign_str (neg : bool) : string :=
  if neg then String "-" EmptyString else EmptyString.

(** *** The addresses of the step engine's hidden breakpoints *)

(** [bkpt_addr] of [rspStep(addr, except)] for the opcode [op] at [addr]. *)
Definition step_bkpt_addr (addr op : Z) : Z :=
  if is32BitsInstr op then u32 (u32 (addr + 2) + 2) else u32 (addr + 2).

(** [bkpt_jump_addr] of [rspStep(addr, except)] from the state [s] the step
    starts from. *)
Definition step_jump_addr (addr : Z) (s : server) : Z :=
  let op := readMem16 s addr in
  jump_target op (readMem16 s (addr + 2)) addr (step_bkpt_addr addr op)
              (is32BitsInstr op) s.

(** *** Memory packets [m] and [M] *)

(** A [%x] result stored into an [int]: the 32-bit pattern read as two's
    complement. *)
Definition to_int32 (v : Z) : Z := if v <? 2 ^ 31 then v else v - 2 ^ 32.

(** The reply body built by [rspReadMem()]: for each byte
    [unsigned char ch = buf[off]], the characters [hex2Char (ch >> 4)] and
    [hex2Char (ch & 0xf)]. *)
Fixpoint hex_bytes (buf : list Z) : string :=
  match buf with
  | [] => EmptyString
  | b :: bs =>
      let ch := b mod 256 in
      String (hex2Char (Z.shiftr ch 4)) (String (hex2Char (Z.land ch 15)) (hex_bytes bs))
  end.

(** [rspReadMem()] on the received packet [p]; [bufSize] is
    [pkt->getBufSize()]. [sscanf (pkt->data, "m%x,%x:", &addr, &len)] must
    convert both fields; a request longer than the buffer is cut to
    [(bufSize - 1) / 2] bytes; [readBurst] of the target is the burst read
    of its memory. A negative [len] (a variable-length array of negative
    size in the source) reads nothing here. *)
Definition rspReadMem (bufSize : Z) (p : string) (s : server) : server :=
  match scan_lit "m" p with
  | None => putPkt "E01" s
  | Some q =>
    match scan_hex q with
    | None => putPkt "E01" s
    | Some (addr, q) =>
      match scan_lit "," q with
      | None => putPkt "E01" s
      | Some q =>
        match scan_hex q with
        | None => putPkt "E01" s
        | Some (len, _) =>
          let len := to_int32 len in
          let len := if bufSize <=? len * 2 then (bufSize - 1) / 2 else len in
          putPkt (hex_bytes (read_burst (mem (target s)) addr (Z.to_nat len))) s
        end
      end
    end
  end.

(** [symDat = memchr (pkt->data, ':', ...) + 1]: the text after the first
    colon ([None] when there is none: the source then dereferences
    [NULL + 1]). *)
Fixpoint after_colon (p : string) : option string :=
  match p with
  | EmptyString => None
  | String c r => if bool_decide (c = ":"%char) then Some r else after_colon r
  end.

(** The [len] bytes at [symDat] handed to [writeBurst] as [unsigned char]. *)
Fixpoint take_chars (n : nat) (p : string) : list Z :=
  match n, p with
  | S n, String c r => Z.of_nat (nat_of_ascii c) :: take_chars n r
  | _, _ => []
  end.

(** [rspWriteMem()] on the received packet [p] (of length [pkt->getLen()]).
    [None] when the packet has no colon. [writeBurst] of the target is the
    burst write of its memory. *)
Definition rspWriteMem (p : string) (s : server) : option server :=
  match scan_lit "M" p with
  | None => Some (putPkt "E01" s)
  | Some q =>
    match scan_hex q with
    | None => Some (putPkt "E01" s)
    | Some (addr, q) =>
      match scan_lit "," q with
      | None => Some (putPkt "E01" s)
      | Some q =>
        match scan_hex q with
        | None => Some (putPkt "E01" s)
        | Some (len, _) =>
          let len := to_int32 len in
          match after_colon p with
          | None => None
          | Some symDat =>
            let datLen := Z.of_nat (String.length symDat) in
            if negb (Z.eqb (len * 2) datLen) then Some (putPkt "E01" s)
            else
              let m := write_burst (mem (target s)) addr
                                   (take_chars (Z.to_nat len) symDat) in
              Some (putPkt "OK" (set_target (set_mem m (target s)) s))
          end
        end
      end
    end
  end.

(** *** The dispatcher [rspClientRequest()] and the handlers it calls *)

Definition starts_with (pre p : string) : bool :=
  bool_decide (String.substring 0 (String.length pre) p = pre).

(** Lower-case hexadecimal notation ([sprintf "%lx"]). *)
Fixpoint hex_digits_str (fuel : nat) (n : Z) (acc : string) : string :=
  match fuel with
  | O => acc
  | S f =>
      let acc' := String (hexdigit (n mod 16)) acc in
      if Z.ltb n 16 then acc' else hex_digits_str f (n / 16) acc'
  end.

Definition hex_of_Z (n : Z) : string := hex_digits_str 20 n EmptyString.

Definition MAX_FILE_NAME_LENGTH : Z := 256 * 4.

(** [S_IRUSR | S_IWUSR] (octal 0400 | 0200). *)
Definition S_IRUSR_IWUSR : Z := 0x180.

(** [for (k = 0; k < MAX_FILE_NAME_LENGTH - 1; k++)] reading the byte at
    [r0 + k] and stopping at ['\0']: the final value of [k]. *)
Fixpoint name_scan (m : Z -> Z) (r0 k : Z) (fuel : nat) : Z :=
  match fuel with
  | O => k
  | S f => if Z.eqb (m (u32 (r0 + k))) 0 then k else name_scan m r0 (k + 1) f
  end.

Definition file_name_length (m : Z -> Z) (r0 : Z) : Z :=
  name_scan m r0 0 (Z.to_nat (MAX_FILE_NAME_LENGTH - 1)).

(** What the dispatcher reaches beyond the code embedded here:
    - [step_run]: the target between the write of RUN and the halt the
      step engine waits for (the [run] of [rspStep]);
    - [cont_poll]: the target as the last poll of the loop of
      [rspContinue(addr, except)] sees it: halted, or still running after
      the third poll;
    - [bufSize]: [pkt->getBufSize()];
    - [ttyOut]: whether [si->ttyOut()] is non-NULL;
    - [ATDSP_NOP_INSTR] and the newlib [SYS_*] numbers, defined in headers
      that are not among the sources;
    - [hex2Ascii]: [Utils::hex2Ascii], not among the sources;
    - [haltTarget]: [targetHalt()], which only writes HALT to DEBUGCMD and
      polls DEBUG: whether the core halted, and the core afterwards;
    - [monitorCmd]: the [qRcmd] commands other than [halt] ([swreset],
      [hwreset], [run], [coreid], [help], [help-hidden], unknown ones),
      which act on the hardware only: the core afterwards and the reply;
    - [otherRequest]: [rspReadAllRegs], [rspWriteAllRegs], [rspSetThread],
      [rspReadReg], [rspWriteReg], [rspSet], [rspWriteMemBin] and the [q]
      queries other than [qRcmd]: from the packet, the core and
      [osProcessReply], the core and [osProcessReply] afterwards and the
      packets sent, or [None] when the handler aborts (a failed [assert]
      of the register accessors). None of these writes [fIsTargetRunning], [mpHash] or
      [fIVTSaveBuff] or calls [rspReportException], [targetResume], the
      continue or step engines or [redirectSdioOnTrap]. *)
Record rsp_env := mk_rsp_env {
  step_run : core -> core;
  cont_poll : core -> core;
  bufSize : Z;
  ttyOut : bool;
  ATDSP_NOP_INSTR : Z;
  SYS_close : Z;
  SYS_open : Z;
  SYS_read : Z;
  SYS_write : Z;
  SYS_lseek : Z;
  SYS_unlink : Z;
  SYS_stat : Z;
  SYS_fstat : Z;
  hex2Ascii : string -> string;
  haltTarget : core -> bool * core;
  monitorCmd : string -> core -> core * string;
  otherRequest : string -> core -> string -> option (core * string * list string)
}.

Section Dispatch.
Variable P : platform.
Variable E : rsp_env.

(** The packet of the [switch (r3)] of [TRAP_OTHER] without a terminal;
    the default case sends [pkt->data] unchanged, here [pktData]. *)
Definition trap_other_packet (pktData : string) (m : Z -> Z) (r0 r1 r2 r3 : Z)
    : string :=
  if Z.eqb r3 (SYS_close E) then ("Fclose," ++ hex_of_Z r0)%string
  else if Z.eqb r3 (SYS_open E) then
    ("Fopen," ++ hex_of_Z r0 ++ "/" ++ dec_of_Z (file_name_length m r0) ++ ","
     ++ hex_of_Z r1 ++ "," ++ hex_of_Z r2)%string
  else if Z.eqb r3 (SYS_read E) then
    ("Fread," ++ hex_of_Z r0 ++ "," ++ hex_of_Z r1 ++ "," ++ hex_of_Z r2)%string
  else if Z.eqb r3 (SYS_write E) then
    ("Fwrite," ++ hex_of_Z r0 ++ "," ++ hex_of_Z r1 ++ "," ++ hex_of_Z r2)%string
  else if Z.eqb r3 (SYS_lseek E) then
    ("Flseek," ++ hex_of_Z r0 ++ "," ++ hex_of_Z r1 ++ "," ++ hex_of_Z r2)%string
  else if Z.eqb r3 (SYS_unlink E) then
    ("Funlink," ++ hex_of_Z r0 ++ "/" ++ dec_of_Z (file_name_length m r0))%string
  else if Z.eqb r3 (SYS_stat E) then
    ("Fstat," ++ hex_of_Z r0 ++ "/" ++ dec_of_Z (file_name_length m r0) ++ ","
     ++ hex_of_Z r1)%string
  else if Z.eqb r3 (SYS_fstat E) then
    ("Ffstat," ++ hex_of_Z r0 ++ "," ++ hex_of_Z r1)%string
  else pktData.

(** [redirectSdioOnTrap(trapNumber)]; [pktData] is [pkt->data] when it is
    called (the received [c] or [s] packet). The [uint32_t] registers are
    read with [readGpr]. With a terminal, [TRAP_OTHER] prints on the host
    terminal (output outside the server state) and resumes the target. *)
Definition redirectSdioOnTrap (pktData : string) (trapNumber : Z) (s : server)
    : server :=
  let r0 := u32 (readGpr s 0) in
  let r1 := u32 (readGpr s 1) in
  let r2 := u32 (readGpr s 2) in
  let r3 := u32 (readGpr s 3) in
  let m := mem (target s) in
  if Z.eqb trapNumber 0 then
    putPkt ("Fwrite," ++ hex_of_Z r0 ++ "," ++ hex_of_Z r1 ++ "," ++ hex_of_Z r2)%string s
  else if Z.eqb trapNumber 1 then
    putPkt ("Fread," ++ hex_of_Z r0 ++ "," ++ hex_of_Z r1 ++ "," ++ hex_of_Z r2)%string s
  else if Z.eqb trapNumber 2 then
    putPkt ("Fopen," ++ hex_of_Z r0 ++ "/" ++ dec_of_Z (file_name_length m r0) ++ ","
            ++ hex_of_Z r1 ++ "," ++ hex_of_Z S_IRUSR_IWUSR)%string s
  else if Z.eqb trapNumber 3 then
    rspReportException (readPc s) 0 TARGET_SIGNAL_QUIT s
  else if Z.eqb trapNumber 4 then
    rspReportException (readPc s) 0 TARGET_SIGNAL_TRAP s
  else if Z.eqb trapNumber 5 then
    rspReportException (readPc s) 0 TARGET_SIGNAL_QUIT s
  else if Z.eqb trapNumber 6 then
    putPkt ("Fclose," ++ hex_of_Z r0)%string s
  else if Z.eqb trapNumber 7 then
    if ttyOut E then targetResume s
    else putPkt (trap_other_packet pktData m r0 r1 r2 r3) s
  else s.

(** The backward search [for (unsigned j = prevPc - 2; j > prevPc - 20;
    j = j - 2)] for a TRAP: the flag [stoppedAtTrap] and the last value
    read. When the loop is entered, [j] is 18 above the bound, so it runs
    at most 9 times. *)
Fixpoint trap_search (s : server) (j bound v : Z) (fuel : nat) : bool * Z :=
  match fuel with
  | O => (false, v)
  | S f =>
      if Z.ltb bound j then
        let v := readMem16 s j in
        if Z.eqb (getfield v 9 0) ATDSP_TRAP_INSTR then (true, v)
        else trap_search s (u32 (j - 2)) bound v f
      else (false, v)
  end.

(** [rspContinue(addr, except)]. *)
Definition rspContinue_addr (pktData : string) (addr : Z) (s : server) : server :=
  let s := if fIsTargetRunning s then s
           else if negb (halted (target s)) then set_running true s
           else targetResume (writePc addr s) in
  let c := cont_poll E (target s) in
  let s := set_target c s in
  if negb (halted c) then s else
  let c_pc := readPc s in
  let prevPc := u32 (c_pc - ATDSP_BKPT_INSTLEN) in
  let v := readMem16 s prevPc in
  if Z.eqb v ATDSP_BKPT_INSTR then
    let s := match mp_lookup BP_MEMORY prevPc (mpHash s) with
             | Some _ => writePc prevPc s
             | None => s
             end in
    rspReportException prevPc 0 TARGET_SIGNAL_TRAP s
  else
    let '(stoppedAtTrap, v) :=
      if Z.eqb (getfield v 9 0) ATDSP_TRAP_INSTR then (true, v)
      else if Z.eqb v (ATDSP_NOP_INSTR E) then
        trap_search s (u32 (prevPc - 2)) (u32 (prevPc - 20)) v 9
      else (false, v) in
    if stoppedAtTrap then
      redirectSdioOnTrap pktData (getfield v 15 10) (set_running false s)
    else rspReportException (readPc s) 0 TARGET_SIGNAL_TRAP s.

(** The address of a [c] or [s] packet: the current PC for the bare
    letter or when [sscanf (pkt->data, "<lead>%x", &addr)] fails. *)
Definition packet_addr (lead : ascii) (p : string) (s : server) : Z :=
  if bool_decide (p = String lead EmptyString) then readPc s
  else match scan_lit lead p with
       | Some q => match scan_hex q with
                   | Some (a, _) => a
                   | None => readPc s
                   end
       | None => readPc s
       end.

(** [rspContinue(except)], the [c] handler. *)
Definition rspContinue_except (p : string) (s : server) : server :=
  if negb (starts_with "c" p) then s
  else rspContinue_addr p (packet_addr "c" p s) s.

(** [rspContinue()], the [C] handler. *)
Definition rspContinue_signal (p : string) (s : server) : server :=
  let exCause :=
    if bool_decide (p = "C03") then TARGET_SIGNAL_QUIT
    else snd (isTargetExceptionState P (status (target s)) TARGET_SIGNAL_TRAP) in
  rspReportException (readPc s) 0 exCause s.

(** [rspStep(except)], the [s] handler. *)
Definition rspStep_except (p : string) (s : server) : option server :=
  if negb (starts_with "s" p) then Some s
  else rspStep P (redirectSdioOnTrap p) (step_run E) (packet_addr "s" p s) s.

(** [rspStep()], the [S] handler: the received packet is sent back. *)
Definition rspStep_signal (p : string) (s : server) : server := putPkt p s.

(** [rspRestart()]. *)
Definition rspRestart (s : server) : server := writePc 0 s.

(** [rspVpkt()]. *)
Definition rspVpkt (p : string) (s : server) : server :=
  if starts_with "vAttach;" p then putPkt (packStr "S05") s
  else if bool_decide (p = "vCont?") then putPkt EmptyString s
  else if starts_with "vCont" p then s
  else if starts_with "vFile:" p then putPkt EmptyString s
  else if starts_with "vFlashErase:" p then putPkt "E01" s
  else if starts_with "vFlashWrite:" p then putPkt "E01" s
  else if bool_decide (p = "vFlashDone") then putPkt "E01" s
  else if starts_with "vRun;" p then putPkt (packStr "S05") (rspRestart s)
  else putPkt "E01" s.

(** [rspCommand()]: [pkt->data] is set to [OK] first; when the core does
    not halt, [rspReportException] leaves its stop packet in [pkt->data],
    which is then sent again. *)
Definition rspCommand (p : string) (s : server) : server :=
  let cmd := hex2Ascii E (String.substring 6 (String.length p - 6) p) in
  if bool_decide (cmd = "halt") then
    let '(isHalted, c) := haltTarget E (target s) in
    let s := set_target c s in
    if isHalted then putPkt "OK" s
    else
      let s := rspReportException 0 0 TARGET_SIGNAL_HUP s in
      putPkt (List.last (sent s) EmptyString) s
  else
    let '(c, reply) := monitorCmd E cmd (target s) in
    putPkt reply (set_target c s).

(** The handlers of [otherRequest] applied to the server. *)
Definition rspOtherRequest (p : string) (s : server) : option server :=
  match otherRequest E p (target s) (osProcessReply s) with
  | Some (c, osr, replies) =>
      Some (mk_server c (mpHash s) (fIsTargetRunning s) (fIVTSaveBuff s)
                      (sent s ++ replies) osr (resumed s))
  | None => None
  end.

(** [rspQuery()]: [qRcmd,] goes to [rspCommand]; no earlier test of the
    chain accepts a packet starting with [qRcmd,]. *)
Definition rspQuery (p : string) (s : server) : option server :=
  if starts_with "qRcmd," p then Some (rspCommand p s) else rspOtherRequest p s.

(** [rspClientRequest()] on the received packet [p]: the switch on
    [pkt->data[0]]. [None] when the process exits or aborts (in the step
    engine or the handlers of [otherRequest]) or dereferences NULL
    ([rspWriteMem] without a colon). *)
Definition rspClientRequest (p : string) (s : server) : option server :=
  match p with
  | String c _ =>
      if bool_decide (c = "!"%char) then Some (putPkt EmptyString s)
      else if bool_decide (c = "?"%char) then
        Some (rspReportException 0 0 TARGET_SIGNAL_TRAP s)
      else if bool_decide (c = "A"%char) then Some (putPkt "E01" s)
      else if bool_decide (c = "c"%char) then Some (rspContinue_except p s)
      else if bool_decide (c = "C"%char) then Some (rspContinue_signal p s)
      else if bool_decide (c = "D"%char) then Some (putPkt "OK" s)
      else if bool_decide (c = "F"%char) then
        Some (targetResume (rspFileIOreply p s))
      else if bool_decide (c = "g"%char) || bool_decide (c = "G"%char)
              || bool_decide (c = "H"%char) then rspOtherRequest p s
      else if bool_decide (c = "k"%char) then Some (set_running false s)
      else if bool_decide (c = "m"%char) then Some (rspReadMem (bufSize E) p s)
      else if bool_decide (c = "M"%char) then rspWriteMem p s
      else if bool_decide (c = "p"%char) || bool_decide (c = "P"%char) then
        rspOtherRequest p s
      else if bool_decide (c = "q"%char) then rspQuery p s
      else if bool_decide (c = "Q"%char) then rspOtherRequest p s
      else if bool_decide (c = "R"%char) then Some (rspRestart s)
      else if bool_decide (c = "s"%char) then rspStep_except p s
      else if bool_decide (c = "S"%char) then Some (rspStep_signal p s)
      else if bool_decide (c = "T"%char) then Some (putPkt "OK" s)
      else if bool_decide (c = "v"%char) then Some (rspVpkt p s)
      else if bool_decide (c = "X"%char) then rspOtherRequest p s
      else if bool_decide (c = "z"%char) then Some (rspRemoveMatchpoint p s)
      else if bool_decide (c = "Z"%char) then Some (rspInsertMatchpoint p s)
      else Some s
  | EmptyString => Some s
  end.

End Dispatch.

End Gdb.

(* ================================================================== *)
(** * Properties *)

Module ShmProofs.
Import Shm.

(** Claim C10: [e_shm_alloc] with a NULL name or a zero size returns NULL
    with [errno = EINVAL], performs no semaphore operation and leaves the
    table unchanged. *)
Theorem e_shm_alloc_einval (name : option string) (size : Z) (e : shm_env) :
  (name = None \/ size = 0) ->
  e_shm_alloc name size e = (None, mk_env (shm_table e) EINVAL (sem_log e)).
Proof.
  intros [-> | ->]; [reflexivity |].
  destruct name; reflexivity.
Qed.

Lemma e_shm_alloc_einval_witness :
  (Some "r"%string = None \/ 0 = 0) /\
  e_shm_alloc (Some "r"%string) 0 (init_env 1024)
  = (None, mk_env (shm_table (init_env 1024)) EINVAL (sem_log (init_env 1024))).
Proof.
  split; [right; reflexivity |].
  apply (e_shm_alloc_einval (Some "r"%string) 0 (init_env 1024)).
  right; reflexivity.
Defined.

(** Claim C1: from a table of 1024 free bytes, [alloc("r", 1024)] then
    [release("r")] leaves no valid region, but [free_space] is
    [0 - 1024] wrapped to 32 bits instead of 1024: the release subtracts
    the region size again. *)
Theorem e_shm_release_subtracts_size :
  let e1 := run_calls (init_env 1024) [Alloc "r" 1024] in
  let e2 := run_calls (init_env 1024) [Alloc "r" 1024; Release "r"] in
  free_space (shm_table e1) = 0 /\ valid_size_sum (shm_table e1) = 1024 /\
  free_space (shm_table e2) = 4294966272 /\ valid_size_sum (shm_table e2) = 0 /\
  1024 - valid_size_sum (shm_table e2) = 1024.
Proof. vm_compute. repeat split. Qed.

(** ** Region lookup and the free-slot search *)

Lemma lookup_from_ge (name : string) (rs : list e_shmseg_pvt) (k i : nat) :
  lookup_from name rs k = Some i -> (k <= i)%nat.
Proof.
  revert k. induction rs as [| r rs IH]; intros k H; [discriminate |].
  simpl in H. destruct (k <? MAX_SHM_REGIONS)%nat; [| discriminate].
  destruct (decide _); [injection H; lia |]. apply IH in H. lia.
Qed.

Lemma lookup_from_some (name : string) (rs : list e_shmseg_pvt) (k n : nat) :
  lookup_from name rs k = Some (k + n)%nat <->
  (k + n < MAX_SHM_REGIONS)%nat /\
  (exists r, rs !! n = Some r /\ region_named name r) /\
  (forall m r, (m < n)%nat -> rs !! m = Some r -> ~ region_named name r).
Proof.
  revert k n. induction rs as [| r rs IH]; intros k n.
  - simpl. split; [discriminate |]. intros [_ [[r [Hr _]] _]]. discriminate.
  - simpl. destruct (Nat.ltb_spec k MAX_SHM_REGIONS) as [Hk | Hk].
    + destruct (decide (valid r <> 0 /\ name = seg_name (shm_seg r))) as [Hp | Hp].
      * split.
        -- intros H. injection H as H. assert (n = 0)%nat as -> by lia.
           split; [lia | split; [exists r; split; [reflexivity | exact Hp] |]].
           intros m r' Hm. lia.
        -- intros [_ [_ Hall]]. destruct n as [| n]; [f_equal; lia |].
           exfalso. apply (Hall 0%nat r); [lia | reflexivity | exact Hp].
      * destruct n as [| n].
        -- split.
           ++ intros H. apply lookup_from_ge in H. lia.
           ++ intros [_ [[r' [Hr' Hp']] _]]. injection Hr' as <-. contradiction.
        -- replace (k + S n)%nat with (S k + n)%nat by lia.
           rewrite IH. split.
           ++ intros [H1 [H2 H3]]. split; [exact H1 | split; [exact H2 |]].
              intros [| m] r' Hm Hr'.
              ** injection Hr' as <-. exact Hp.
              ** apply (H3 m r'); [lia | exact Hr'].
           ++ intros [H1 [H2 H3]]. split; [exact H1 | split; [exact H2 |]].
              intros m r' Hm Hr'. apply (H3 (S m) r'); [lia | exact Hr'].
    + split; [discriminate | intros [H _]; lia].
Qed.

Lemma lookup_from_none (name : string) (rs : list e_shmseg_pvt) (k : nat) :
  lookup_from name rs k = None <->
  (forall n r, (k + n < MAX_SHM_REGIONS)%nat -> rs !! n = Some r ->
               ~ region_named name r).
Proof.
  revert k. induction rs as [| r rs IH]; intros k.
  - simpl. split; [intros _ n r _ Hr; discriminate | reflexivity].
  - simpl. destruct (Nat.ltb_spec k MAX_SHM_REGIONS) as [Hk | Hk].
    + destruct (decide (valid r <> 0 /\ name = seg_name (shm_seg r))) as [Hp | Hp].
      * split; [discriminate |]. intros H. exfalso.
        apply (H 0%nat r); [lia | reflexivity | exact Hp].
      * rewrite IH. split.
        -- intros H [| n] r' Hn Hr'.
           ++ injection Hr' as <-. exact Hp.
           ++ apply (H n r'); [lia | exact Hr'].
        -- intros H n r' Hn Hr'. apply (H (S n) r'); [lia | exact Hr'].
    + split; [intros _ n r' Hn; lia | reflexivity].
Qed.

Lemma first_free_some (rs : list e_shmseg_pvt) (k n : nat) (r : e_shmseg_pvt) :
  (k + n < MAX_SHM_REGIONS)%nat -> rs !! n = Some r -> valid r = 0 ->
  (forall m r', (m < n)%nat -> rs !! m = Some r' -> valid r' <> 0) ->
  first_free rs k = Some (k + n)%nat.
Proof.
  revert k n. induction rs as [| r0 rs IH]; intros k n Hn Hr Hv Hall;
    [discriminate |].
  simpl. destruct (Nat.ltb_spec k MAX_SHM_REGIONS) as [Hk | Hk]; [| lia].
  destruct (decide (valid r0 = 0)) as [H0 | H0].
  - destruct n as [| n]; [f_equal; lia |].
    exfalso. apply (Hall 0%nat r0); [lia | reflexivity | exact H0].
  - destruct n as [| n]; [injection Hr as ->; contradiction |].
    replace (k + S n)%nat with (S k + n)%nat by lia.
    apply (IH (S k) n); [lia | exact Hr | exact Hv |].
    intros m r' Hm Hr'. apply (Hall (S m) r'); [lia | exact Hr'].
Qed.

Lemma first_free_none (rs : list e_shmseg_pvt) (k : nat) :
  (forall n r, (k + n < MAX_SHM_REGIONS)%nat -> rs !! n = Some r -> valid r <> 0) ->
  first_free rs k = None.
Proof.
  revert k. induction rs as [| r rs IH]; intros k H; [reflexivity |].
  simpl. destruct (Nat.ltb_spec k MAX_SHM_REGIONS) as [Hk | Hk]; [| reflexivity].
  destruct (decide (valid r = 0)) as [H0 | H0].
  - exfalso. apply (H 0%nat r); [lia | reflexivity | exact H0].
  - apply IH. intros n r' Hn Hr'. apply (H (S n) r'); [lia | exact Hr'].
Qed.

(** [shm_lookup_region(name)] returns the first of the 64 region
    slots that is valid and named [name], and NULL when no such slot
    exists. *)
Theorem shm_lookup_region_spec (name : string) (t : e_shmtable) :
  (forall i, shm_lookup_region name t = Some i <->
     (i < MAX_SHM_REGIONS)%nat /\
     (exists r, regions t !! i = Some r /\ valid r <> 0 /\ seg_name (shm_seg r) = name) /\
     (forall j r, (j < i)%nat -> regions t !! j = Some r ->
        valid r = 0 \/ seg_name (shm_seg r) <> name)) /\
  (shm_lookup_region name t = None <->
     forall i r, (i < MAX_SHM_REGIONS)%nat -> regions t !! i = Some r ->
        valid r = 0 \/ seg_name (shm_seg r) <> name).
Proof.
  unfold shm_lookup_region. split.
  - intros i. change i with (0 + i)%nat at 1. rewrite lookup_from_some.
    unfold region_named. split.
    + intros [H1 [[r [Hr [Hv Hn]]] H3]]. split; [lia |].
      split; [exists r; repeat split; congruence |].
      intros j r' Hj Hr'. destruct (decide (valid r' = 0)) as [? | Hv']; [left; auto |].
      right. intros Hn'. apply (H3 j r' Hj Hr'). split; congruence.
    + intros [H1 [[r [Hr [Hv Hn]]] H3]]. split; [lia |].
      split; [exists r; repeat split; congruence |].
      intros j r' Hj Hr' [Hv' Hn']. destruct (H3 j r' Hj Hr'); congruence.
  - rewrite lookup_from_none. unfold region_named. split.
    + intros H i r Hi Hr. destruct (decide (valid r = 0)) as [? | Hv]; [left; auto |].
      right. intros Hn. apply (H i r); [lia | exact Hr | split; congruence].
    + intros H n r Hn Hr [Hv Hn']. destruct (H n r Hn Hr); congruence.
Qed.

Lemma lookup_from_insert_same (name : string) (rs : list e_shmseg_pvt)
    (k i : nat) (r r' : e_shmseg_pvt) :
  rs !! i = Some r -> valid r' = valid r ->
  seg_name (shm_seg r') = seg_name (shm_seg r) ->
  lookup_from name (<[i := r']> rs) k = lookup_from name rs k.
Proof.
  revert k i. induction rs as [| r0 rs IH]; intros k i Hr Hv Hn; [discriminate |].
  destruct i as [| i].
  - injection Hr as ->. simpl. rewrite Hv, Hn. reflexivity.
  - simpl. rewrite (IH (S k) i Hr Hv Hn). reflexivity.
Qed.

Lemma substring_full (s : string) (n : nat) :
  (String.length s <= n)%nat -> String.substring 0 n s = s.
Proof.
  revert n. induction s as [| c s IH]; intros n Hn.
  - destruct n; reflexivity.
  - destruct n as [| n]; simpl in Hn; [lia |].
    simpl. rewrite IH by lia. reflexivity.
Qed.

Lemma e_shm_alloc_fresh_eq (nm : string) (size : Z) (e : shm_env) (i : nat)
    (r : e_shmseg_pvt) :
  size <> 0 -> size <= free_space (shm_table e) ->
  shm_lookup_region nm (shm_table e) = None ->
  (i < MAX_SHM_REGIONS)%nat -> regions (shm_table e) !! i = Some r -> valid r = 0 ->
  (forall j r', (j < i)%nat -> regions (shm_table e) !! j = Some r' -> valid r' <> 0) ->
  e_shm_alloc (Some nm) size e =
  (Some i, mk_env
     (mk_shmtable
        (<[i := mk_shmseg_pvt (mk_shmseg (strncpy_name nm) size
                                         (next_free_offset (shm_table e))) 1 1]>
           (regions (shm_table e)))
        (u32 (free_space (shm_table e) - size))
        (next_free_offset (shm_table e) + size))
     (errno e) (sem_log e ++ [SemWait; SemPost])).
Proof.
  intros Hs Hf Hl Hi Hr Hv Hall. destruct e as [t err log]. cbn -[insert lookup shm_lookup_region] in *.
  unfold e_shm_alloc. destruct (decide (size = 0)); [contradiction |].
  unfold sem, set_table, set_errno; cbn -[insert lookup shm_lookup_region]. rewrite Hl. destruct (decide (size > free_space t)); [lia |].
  unfold sem, set_table, set_errno; cbn -[insert lookup shm_lookup_region]. destruct (decide (size > free_space t)); [lia |].
  unfold shm_alloc_region.
  rewrite (first_free_some (regions t) 0 i r) by (auto; lia). unfold sem, set_table, set_errno; cbn -[insert lookup shm_lookup_region].
  rewrite Hr. unfold sem, set_table, set_errno; cbn -[insert lookup shm_lookup_region].
  rewrite list_lookup_insert_eq by (eapply lookup_lt_Some; eauto).
  rewrite list_insert_insert_eq. unfold sem, set_table, set_errno; cbn -[insert lookup shm_lookup_region]. rewrite <- app_assoc. reflexivity.
Qed.

Lemma e_shm_alloc_fresh_lookup (nm : string) (size : Z) (t : e_shmtable) (i : nat)
    (r : e_shmseg_pvt) (rc v : Z) :
  (String.length nm <= 256)%nat -> v <> 0 ->
  shm_lookup_region nm t = None ->
  (i < MAX_SHM_REGIONS)%nat -> regions t !! i = Some r ->
  shm_lookup_region nm
    (mk_shmtable
       (<[i := mk_shmseg_pvt (mk_shmseg (strncpy_name nm) size
                                        (next_free_offset t)) rc v]> (regions t))
       (u32 (free_space t - size)) (next_free_offset t + size)) = Some i.
Proof.
  intros Hlen Hv Hl Hi Hr. unfold shm_lookup_region in *. unfold sem, set_table, set_errno; cbn -[insert lookup shm_lookup_region].
  change i with (0 + i)%nat at 2. apply lookup_from_some. split; [lia |].
  split.
  - eexists. split.
    + apply list_lookup_insert_eq. eapply lookup_lt_Some; eauto.
    + split; [exact Hv |]. unfold sem, set_table, set_errno; cbn -[insert lookup shm_lookup_region]. unfold strncpy_name.
      rewrite substring_full by lia. reflexivity.
  - intros m r' Hm Hr'. rewrite list_lookup_insert_ne in Hr' by lia.
    apply (proj1 (lookup_from_none nm (regions t) 0) Hl m r'); [lia | exact Hr'].
Qed.

(** [e_shm_alloc] of a name that is already allocated returns NULL
    with [errno = EEXIST], leaves the table unchanged and releases the
    lock it took. *)
Theorem e_shm_alloc_eexist (nm : string) (size : Z) (e : shm_env) (i : nat) :
  size <> 0 -> shm_lookup_region nm (shm_table e) = Some i ->
  e_shm_alloc (Some nm) size e =
  (None, mk_env (shm_table e) EEXIST (sem_log e ++ [SemWait; SemPost])).
Proof.
  intros Hs Hl. destruct e as [t err log]. cbn -[insert lookup shm_lookup_region] in *.
  unfold e_shm_alloc. destruct (decide (size = 0)); [contradiction |].
  unfold sem, set_table, set_errno; cbn -[insert lookup shm_lookup_region]. rewrite Hl. unfold sem, set_table, set_errno; cbn -[insert lookup shm_lookup_region]. rewrite <- app_assoc. reflexivity.
Qed.

(** [e_shm_alloc] of a new name larger than the free space returns
    NULL with [errno = ENOMEM] (the heap compaction does nothing), leaves
    the table unchanged and releases the lock. *)
Theorem e_shm_alloc_enomem (nm : string) (size : Z) (e : shm_env) :
  size <> 0 -> shm_lookup_region nm (shm_table e) = None ->
  free_space (shm_table e) < size ->
  e_shm_alloc (Some nm) size e =
  (None, mk_env (shm_table e) ENOMEM (sem_log e ++ [SemWait; SemPost])).
Proof.
  intros Hs Hl Hf. destruct e as [t err log]. cbn -[insert lookup shm_lookup_region] in *.
  unfold e_shm_alloc. destruct (decide (size = 0)); [contradiction |].
  unfold sem, set_table, set_errno; cbn -[insert lookup shm_lookup_region]. rewrite Hl. destruct (decide (size > free_space t)); [| lia].
  unfold sem, set_table, set_errno; cbn -[insert lookup shm_lookup_region]. destruct (decide (size > free_space t)); [| lia].
  unfold sem, set_table, set_errno; cbn -[insert lookup shm_lookup_region]. rewrite <- app_assoc. reflexivity.
Qed.

(** When all 64 region slots are in use, [e_shm_alloc] of a new name
    that fits in the free space returns NULL without setting [errno]; the
    table is unchanged and the lock is released. *)
Theorem e_shm_alloc_table_full (nm : string) (size : Z) (e : shm_env) :
  size <> 0 -> size <= free_space (shm_table e) ->
  shm_lookup_region nm (shm_table e) = None ->
  (forall i r, (i < MAX_SHM_REGIONS)%nat -> regions (shm_table e) !! i = Some r ->
     valid r <> 0) ->
  e_shm_alloc (Some nm) size e =
  (None, mk_env (shm_table e) (errno e) (sem_log e ++ [SemWait; SemPost])).
Proof.
  intros Hs Hf Hl Hall. destruct e as [t err log]. cbn -[insert lookup shm_lookup_region] in *.
  unfold e_shm_alloc. destruct (decide (size = 0)); [contradiction |].
  unfold sem, set_table, set_errno; cbn -[insert lookup shm_lookup_region]. rewrite Hl. destruct (decide (size > free_space t)); [lia |].
  unfold sem, set_table, set_errno; cbn -[insert lookup shm_lookup_region]. destruct (decide (size > free_space t)); [lia |].
  unfold shm_alloc_region. rewrite first_free_none by (intros k0 r0 Hk0; apply Hall; lia).
  unfold sem, set_table, set_errno; cbn -[insert lookup shm_lookup_region]. rewrite <- app_assoc. reflexivity.
Qed.

(** [e_shm_alloc] of a new name that fits takes the first free
    slot [i]: the slot becomes valid with [refcnt = 1], the (truncated)
    name, the size and offset [next_free_offset]; [free_space] drops by
    [size] and [next_free_offset] grows by [size]; no other slot changes,
    [errno] is untouched and the lock is released. *)
Theorem e_shm_alloc_fresh (nm : string) (size : Z) (e : shm_env) (i : nat)
    (r : e_shmseg_pvt) :
  0 < size <= free_space (shm_table e) -> free_space (shm_table e) < 2 ^ 32 ->
  shm_lookup_region nm (shm_table e) = None ->
  (i < MAX_SHM_REGIONS)%nat -> regions (shm_table e) !! i = Some r -> valid r = 0 ->
  (forall j r', (j < i)%nat -> regions (shm_table e) !! j = Some r' -> valid r' <> 0) ->
  e_shm_alloc (Some nm) size e =
  (Some i, mk_env
     (mk_shmtable
        (<[i := mk_shmseg_pvt (mk_shmseg (strncpy_name nm) size
                                         (next_free_offset (shm_table e))) 1 1]>
           (regions (shm_table e)))
        (free_space (shm_table e) - size)
        (next_free_offset (shm_table e) + size))
     (errno e) (sem_log e ++ [SemWait; SemPost])).
Proof.
  intros Hs Hf Hl Hi Hr Hv Hall.
  rewrite (e_shm_alloc_fresh_eq nm size e i r) by (auto; lia).
  unfold u32. rewrite Z.mod_small by lia. reflexivity.
Qed.

(** After a successful [e_shm_alloc] of a name shorter than the
    256-byte name field, [e_shm_attach] of the same name returns the same
    region and raises its reference count to 2. *)
Theorem e_shm_alloc_then_attach (nm : string) (size : Z) (e : shm_env) (i : nat)
    (r : e_shmseg_pvt) :
  (String.length nm < 256)%nat ->
  size <> 0 -> size <= free_space (shm_table e) ->
  shm_lookup_region nm (shm_table e) = None ->
  (i < MAX_SHM_REGIONS)%nat -> regions (shm_table e) !! i = Some r -> valid r = 0 ->
  (forall j r', (j < i)%nat -> regions (shm_table e) !! j = Some r' -> valid r' <> 0) ->
  let e1 := snd (e_shm_alloc (Some nm) size e) in
  fst (e_shm_attach nm e1) = Some i /\
  regions (shm_table (snd (e_shm_attach nm e1))) !! i =
    Some (mk_shmseg_pvt (mk_shmseg nm size (next_free_offset (shm_table e))) 2 1).
Proof.
  intros Hlen Hs Hf Hl Hi Hr Hv Hall e1. unfold e1.
  rewrite (e_shm_alloc_fresh_eq nm size e i r) by auto. unfold sem, set_table, set_errno; cbn -[insert lookup shm_lookup_region].
  unfold e_shm_attach. unfold sem, set_table, set_errno; cbn -[insert lookup shm_lookup_region].
  rewrite (e_shm_alloc_fresh_lookup nm size (shm_table e) i r 1 1) by (auto; lia).
  unfold sem, set_table, set_errno; cbn -[insert lookup shm_lookup_region]. assert (Hlt : (i < length (regions (shm_table e)))%nat)
    by (eapply lookup_lt_Some; eauto).
  rewrite list_lookup_insert_eq by exact Hlt. unfold sem, set_table, set_errno; cbn -[insert lookup shm_lookup_region]. split; [reflexivity |].
  rewrite list_insert_insert_eq, list_lookup_insert_eq by exact Hlt.
  unfold strncpy_name. rewrite substring_full by lia. reflexivity.
Qed.

(** [e_shm_attach] followed by [e_shm_release] of a mapped region
    whose reference count (an [unsigned]) is at least 1 succeeds and
    restores the table exactly, also when the increment wraps to 0; the
    lock is taken and released twice. *)
Theorem e_shm_attach_release (nm : string) (e : shm_env) (i : nat)
    (r : e_shmseg_pvt) :
  shm_lookup_region nm (shm_table e) = Some i ->
  regions (shm_table e) !! i = Some r -> 1 <= refcnt r < 2 ^ 32 ->
  e_shm_release nm (snd (e_shm_attach nm e)) =
  (E_OK, mk_env (shm_table e) (errno e)
                (sem_log e ++ [SemWait; SemPost; SemWait; SemPost])).
Proof.
  intros Hl Hr Hc. destruct e as [[rs fs nf] err log]. cbn -[insert lookup shm_lookup_region] in *.
  unfold e_shm_attach. unfold sem, set_table, set_errno; cbn -[insert lookup shm_lookup_region]. rewrite Hl. rewrite Hr. unfold sem, set_table, set_errno; cbn -[insert lookup shm_lookup_region].
  unfold e_shm_release. unfold sem, set_table, set_errno; cbn -[insert lookup shm_lookup_region]. unfold shm_lookup_region. unfold sem, set_table, set_errno; cbn -[insert lookup shm_lookup_region].
  rewrite (lookup_from_insert_same nm rs 0 i r) by auto.
  unfold shm_lookup_region in Hl. cbn in Hl. rewrite Hl.
  assert (Hlt : (i < length rs)%nat) by (eapply lookup_lt_Some; eauto).
  rewrite list_lookup_insert_eq by exact Hlt. unfold sem, set_table, set_errno; cbn -[insert lookup shm_lookup_region].
  assert (Hu : u32 (u32 (refcnt r + 1) - 1) = refcnt r).
  { unfold u32. rewrite Zminus_mod_idemp_l.
    replace (refcnt r + 1 - 1) with (refcnt r) by lia. apply Z.mod_small. lia. }
  rewrite Hu. destruct (decide (refcnt r = 0)); [lia |].
  rewrite list_insert_insert_eq. destruct r as [sg rc v]. unfold sem, set_table, set_errno; cbn -[insert lookup shm_lookup_region].
  rewrite list_insert_id by exact Hr. rewrite <- !app_assoc. reflexivity.
Qed.

(** [e_shm_attach] and [e_shm_release] of a name that no valid
    region carries return NULL and [E_ERR]; the table and [errno] are
    unchanged and the lock is released. *)
Theorem e_shm_attach_release_missing (nm : string) (e : shm_env) :
  shm_lookup_region nm (shm_table e) = None ->
  e_shm_attach nm e = (None, mk_env (shm_table e) (errno e)
                                    (sem_log e ++ [SemWait; SemPost])) /\
  e_shm_release nm e = (E_ERR, mk_env (shm_table e) (errno e)
                                      (sem_log e ++ [SemWait; SemPost])).
Proof.
  intros Hl. destruct e as [t err log]. cbn -[insert lookup shm_lookup_region] in *.
  unfold e_shm_attach, e_shm_release. unfold sem, set_table, set_errno; cbn -[insert lookup shm_lookup_region]. rewrite Hl. unfold sem, set_table, set_errno; cbn -[insert lookup shm_lookup_region].
  rewrite <- app_assoc. split; reflexivity.
Qed.

(** Releasing a freshly allocated region (name shorter than 256
    bytes) clears its slot: the name is no longer found, while
    [next_free_offset] keeps the bump made by the allocation (the heap
    space is not reused). *)
Theorem e_shm_alloc_then_release (nm : string) (size : Z) (e : shm_env) (i : nat)
    (r : e_shmseg_pvt) :
  (String.length nm < 256)%nat ->
  size <> 0 -> size <= free_space (shm_table e) ->
  shm_lookup_region nm (shm_table e) = None ->
  (i < MAX_SHM_REGIONS)%nat -> regions (shm_table e) !! i = Some r -> valid r = 0 ->
  (forall j r', (j < i)%nat -> regions (shm_table e) !! j = Some r' -> valid r' <> 0) ->
  let e2 := snd (e_shm_release nm (snd (e_shm_alloc (Some nm) size e))) in
  fst (e_shm_release nm (snd (e_shm_alloc (Some nm) size e))) = E_OK /\
  shm_lookup_region nm (shm_table e2) = None /\
  next_free_offset (shm_table e2) = next_free_offset (shm_table e) + size.
Proof.
  intros Hlen Hs Hf Hl Hi Hr Hv Hall e2. unfold e2.
  rewrite (e_shm_alloc_fresh_eq nm size e i r) by auto. unfold sem, set_table, set_errno; cbn -[insert lookup shm_lookup_region].
  unfold e_shm_release. unfold sem, set_table, set_errno; cbn -[insert lookup shm_lookup_region].
  rewrite (e_shm_alloc_fresh_lookup nm size (shm_table e) i r 1 1) by (auto; lia).
  unfold sem, set_table, set_errno; cbn -[insert lookup shm_lookup_region]. assert (Hlt : (i < length (regions (shm_table e)))%nat)
    by (eapply lookup_lt_Some; eauto).
  rewrite list_lookup_insert_eq by exact Hlt. unfold sem, set_table, set_errno; cbn -[insert lookup shm_lookup_region].
  change (u32 (1 - 1)) with 0. destruct (decide (0 = 0)) as [_ | []]; [| reflexivity].
  unfold sem, set_table, set_errno; cbn -[insert lookup shm_lookup_region]. split; [reflexivity |]. split; [| reflexivity].
  rewrite list_insert_insert_eq. unfold shm_lookup_region. unfold sem, set_table, set_errno; cbn -[insert lookup shm_lookup_region].
  apply lookup_from_none. intros n r' Hn Hr' [Hv' Hn']. cbn -[insert lookup shm_lookup_region] in Hn.
  destruct (decide (n = i)) as [-> | Hne].
  - rewrite list_lookup_insert_eq in Hr' by exact Hlt. injection Hr' as <-.
    apply Hv'. reflexivity.
  - rewrite list_lookup_insert_ne in Hr' by congruence.
    apply (proj1 (lookup_from_none nm (regions (shm_table e)) 0) Hl n r');
      [lia | exact Hr' |].
    split; [exact Hv' | exact Hn'].
Qed.

(** Every call that reaches the table takes and releases the
    semaphore exactly once: [e_shm_attach], [e_shm_release], and
    [e_shm_alloc] with a non-NULL name and a nonzero size each append
    [sem_wait; sem_post] to the semaphore history. *)
Theorem shm_lock_balanced (nm : string) (size : Z) (e : shm_env) :
  size <> 0 ->
  sem_log (snd (e_shm_alloc (Some nm) size e)) = sem_log e ++ [SemWait; SemPost] /\
  sem_log (snd (e_shm_attach nm e)) = sem_log e ++ [SemWait; SemPost] /\
  sem_log (snd (e_shm_release nm e)) = sem_log e ++ [SemWait; SemPost].
Proof.
  intros Hs. destruct e as [t err log].
  unfold e_shm_alloc, e_shm_attach, e_shm_release.
  destruct (decide (size = 0)); [contradiction |].
  unfold sem, set_table, set_errno; cbn -[insert lookup shm_lookup_region]. rewrite <- app_assoc.
  repeat split; repeat (case_match; cbn; try rewrite <- app_assoc); reflexivity.
Qed.

Lemma e_shm_alloc_eexist_witness :
  shm_lookup_region "a" (shm_table (snd (e_shm_alloc (Some "a") 10 (init_env 1000))))
    = Some 0%nat /\
  e_shm_alloc (Some "a") 10 (snd (e_shm_alloc (Some "a") 10 (init_env 1000))) =
  (None, mk_env (shm_table (snd (e_shm_alloc (Some "a") 10 (init_env 1000)))) EEXIST
     (sem_log (snd (e_shm_alloc (Some "a") 10 (init_env 1000))) ++ [SemWait; SemPost])).
Proof.
  split; [vm_compute; reflexivity |].
  apply (e_shm_alloc_eexist "a" 10 _ 0); [discriminate | vm_compute; reflexivity].
Defined.

Lemma e_shm_alloc_enomem_witness :
  e_shm_alloc (Some "a") 2000 (init_env 1000) =
  (None, mk_env (init_table 1000) ENOMEM [SemWait; SemPost]).
Proof.
  apply (e_shm_alloc_enomem "a" 2000 (init_env 1000));
    [discriminate | vm_compute; reflexivity | cbn; lia].
Defined.

Lemma e_shm_alloc_table_full_witness :
  e_shm_alloc (Some "b") 10
    (mk_env (mk_shmtable (replicate MAX_SHM_REGIONS
                            (mk_shmseg_pvt (mk_shmseg "a" 1 0) 1 1)) 1000 64) 0 []) =
  (None, mk_env (mk_shmtable (replicate MAX_SHM_REGIONS
                                (mk_shmseg_pvt (mk_shmseg "a" 1 0) 1 1)) 1000 64)
                0 [SemWait; SemPost]).
Proof.
  apply (e_shm_alloc_table_full "b" 10);
    [discriminate | cbn; lia | vm_compute; reflexivity |].
  intros i r _ H. cbn [regions shm_table] in H.
  apply lookup_replicate in H as [-> _]. discriminate.
Defined.

Lemma e_shm_alloc_fresh_witness :
  e_shm_alloc (Some "a") 10 (init_env 1000) =
  (Some 0%nat, mk_env
     (mk_shmtable (<[0%nat := mk_shmseg_pvt (mk_shmseg (strncpy_name "a") 10 0) 1 1]>
                     (regions (init_table 1000))) (1000 - 10) (0 + 10))
     0 ([] ++ [SemWait; SemPost])).
Proof.
  apply (e_shm_alloc_fresh "a" 10 (init_env 1000) 0 empty_region);
    [cbn; lia | cbn; lia | vm_compute; reflexivity | unfold MAX_SHM_REGIONS; lia | reflexivity
    | reflexivity | intros j r' Hj; lia].
Defined.

Lemma e_shm_alloc_then_attach_witness :
  fst (e_shm_attach "a" (snd (e_shm_alloc (Some "a") 10 (init_env 1000)))) = Some 0%nat /\
  regions (shm_table (snd (e_shm_attach "a"
                             (snd (e_shm_alloc (Some "a") 10 (init_env 1000)))))) !! 0%nat =
    Some (mk_shmseg_pvt (mk_shmseg "a" 10 0) 2 1).
Proof.
  apply (e_shm_alloc_then_attach "a" 10 (init_env 1000) 0 empty_region);
    [cbn; lia | discriminate | cbn; lia | vm_compute; reflexivity | unfold MAX_SHM_REGIONS; lia
    | reflexivity | reflexivity | intros j r' Hj; lia].
Defined.

Lemma e_shm_attach_release_witness :
  e_shm_release "a" (snd (e_shm_attach "a" (snd (e_shm_alloc (Some "a") 10 (init_env 1000))))) =
  (E_OK, mk_env (shm_table (snd (e_shm_alloc (Some "a") 10 (init_env 1000))))
     (errno (snd (e_shm_alloc (Some "a") 10 (init_env 1000))))
     (sem_log (snd (e_shm_alloc (Some "a") 10 (init_env 1000)))
        ++ [SemWait; SemPost; SemWait; SemPost])).
Proof.
  apply (e_shm_attach_release "a" (snd (e_shm_alloc (Some "a") 10 (init_env 1000))) 0
           (mk_shmseg_pvt (mk_shmseg "a" 10 0) 1 1));
    [vm_compute; reflexivity | vm_compute; reflexivity | cbn; lia].
Defined.

Lemma e_shm_attach_release_missing_witness :
  e_shm_attach "a" (init_env 1000) = (None, mk_env (init_table 1000) 0 [SemWait; SemPost]) /\
  e_shm_release "a" (init_env 1000) = (E_ERR, mk_env (init_table 1000) 0 [SemWait; SemPost]).
Proof.
  apply (e_shm_attach_release_missing "a" (init_env 1000)). vm_compute. reflexivity.
Defined.

Lemma e_shm_alloc_then_release_witness :
  fst (e_shm_release "a" (snd (e_shm_alloc (Some "a") 10 (init_env 1000)))) = E_OK /\
  shm_lookup_region "a"
    (shm_table (snd (e_shm_release "a" (snd (e_shm_alloc (Some "a") 10 (init_env 1000))))))
    = None /\
  next_free_offset
    (shm_table (snd (e_shm_release "a" (snd (e_shm_alloc (Some "a") 10 (init_env 1000))))))
    = next_free_offset (shm_table (init_env 1000)) + 10.
Proof.
  apply (e_shm_alloc_then_release "a" 10 (init_env 1000) 0 empty_region);
    [cbn; lia | discriminate | cbn; lia | vm_compute; reflexivity | unfold MAX_SHM_REGIONS; lia
    | reflexivity | reflexivity | intros j r' Hj; lia].
Defined.

Lemma shm_lock_balanced_witness :
  sem_log (snd (e_shm_alloc (Some "a") 10 (init_env 1000))) = [] ++ [SemWait; SemPost] /\
  sem_log (snd (e_shm_attach "a" (init_env 1000))) = [] ++ [SemWait; SemPost] /\
  sem_log (snd (e_shm_release "a" (init_env 1000))) = [] ++ [SemWait; SemPost].
Proof.
  apply (shm_lock_balanced "a" 10 (init_env 1000)). discriminate.
Defined.

End ShmProofs.

Module GdbProofs.
Import Gdb.

(** ** Bit fields *)

(** Close a goal on booleans built from [Z.testbit] atoms. *)
Ltac bits_bool :=
  repeat match goal with
  | |- context [Z.testbit ?a ?b] => destruct (Z.testbit a b)
  end; reflexivity.

Lemma getfield_div_mod (x hi lo : Z) :
  0 <= lo <= hi -> getfield x hi lo = (x / 2 ^ lo) mod 2 ^ (hi - lo + 1).
Proof.
  intros H. unfold getfield.
  rewrite Z.land_ones by lia. rewrite Z.shiftr_div_pow2 by lia. reflexivity.
Qed.

Lemma low_bits_16 (op : Z) :
  exists q r, op = 16 * q + r /\ 0 <= r < 16.
Proof.
  exists (op / 16), (op mod 16).
  split; [apply Z.div_mod; lia | apply Z.mod_pos_bound; lia].
Qed.

Lemma low4_fields (op : Z) :
  op mod 8 = (op mod 16) mod 8 /\ op mod 4 = (op mod 16) mod 4 /\
  (op / 8) mod 2 = (op mod 16) / 8.
Proof.
  destruct (low_bits_16 op) as (q & r & -> & Hr).
  replace ((16 * q + r) mod 16) with r by (Z.div_mod_to_equations; lia).
  repeat split; Z.div_mod_to_equations; lia.
Qed.

(** Claim C6: an opcode is classified as 32-bit iff bits 3..0 are 0xF, or
    bits 2..0 are 3 with bit 3 set, or (bits 2..0 are 4 or bits 1..0 are 1)
    with bit 3 set, or bits 2..0 are 0 with bit 3 set. *)
Theorem is32BitsInstr_spec (op : Z) :
  is32BitsInstr op = true <->
  op mod 16 = 15
  \/ (op mod 8 = 3 /\ (op / 8) mod 2 = 1)
  \/ ((op mod 8 = 4 \/ op mod 4 = 1) /\ (op / 8) mod 2 = 1)
  \/ (op mod 8 = 0 /\ (op / 8) mod 2 = 1).
Proof.
  unfold is32BitsInstr.
  assert (G30 : getfield op 3 0 = op mod 16)
    by (rewrite getfield_div_mod by lia; change (2 ^ 0) with 1;
        change (2 ^ (3 - 0 + 1)) with 16; now rewrite Z.div_1_r).
  assert (G20 : getfield op 2 0 = op mod 8)
    by (rewrite getfield_div_mod by lia; change (2 ^ 0) with 1;
        change (2 ^ (2 - 0 + 1)) with 8; now rewrite Z.div_1_r).
  assert (G10 : getfield op 1 0 = op mod 4)
    by (rewrite getfield_div_mod by lia; change (2 ^ 0) with 1;
        change (2 ^ (1 - 0 + 1)) with 4; now rewrite Z.div_1_r).
  assert (G33 : getfield op 3 3 = (op / 8) mod 2)
    by (rewrite getfield_div_mod by lia; reflexivity).
  rewrite G30, G20, G10, G33.
  destruct (low4_fields op) as (H8 & H4 & H2). rewrite H8, H4, H2.
  assert (0 <= op mod 16 < 16) as Hr by (apply Z.mod_pos_bound; lia).
  set (r := op mod 16) in *. clearbody r.
  assert (r = 0 \/ r = 1 \/ r = 2 \/ r = 3 \/ r = 4 \/ r = 5 \/ r = 6 \/ r = 7 \/
          r = 8 \/ r = 9 \/ r = 10 \/ r = 11 \/ r = 12 \/ r = 13 \/ r = 14 \/ r = 15)
    as Hc by lia.
  repeat (destruct Hc as [-> | Hc];
          [ simpl; split; intro Hx; [ try discriminate; lia | try reflexivity; lia ] | ]);
  subst; simpl; split; intro Hx; [ try discriminate; lia | try reflexivity; lia ].
Qed.

(** Claim C7: the exception check reports an exception exactly when
    STATUS[18:16] is non-zero, with the signal SIGBUS for
    [E_UNALIGMENT_LS], SIGFPE for [E_FPU], SIGILL for [E_UNIMPL] and SIGABRT
    for any other non-zero value (the three codes being distinct). *)
Theorem isTargetExceptionState_spec (P : platform) (coreStatus exCause : Z) :
  E_UNALIGMENT_LS P <> E_FPU P -> E_UNALIGMENT_LS P <> E_UNIMPL P ->
  E_FPU P <> E_UNIMPL P ->
  let exStat := (coreStatus / 2 ^ 16) mod 8 in
  (fst (isTargetExceptionState P coreStatus exCause) = true <-> exStat <> 0) /\
  (exStat = 0 -> isTargetExceptionState P coreStatus exCause = (false, exCause)) /\
  (exStat <> 0 -> exStat = E_UNALIGMENT_LS P ->
     isTargetExceptionState P coreStatus exCause = (true, TARGET_SIGNAL_BUS)) /\
  (exStat <> 0 -> exStat = E_FPU P ->
     isTargetExceptionState P coreStatus exCause = (true, TARGET_SIGNAL_FPE)) /\
  (exStat <> 0 -> exStat = E_UNIMPL P ->
     isTargetExceptionState P coreStatus exCause = (true, TARGET_SIGNAL_ILL)) /\
  (exStat <> 0 -> exStat <> E_UNALIGMENT_LS P -> exStat <> E_FPU P ->
     exStat <> E_UNIMPL P ->
     isTargetExceptionState P coreStatus exCause = (true, TARGET_SIGNAL_ABRT)).
Proof.
  intros H1 H2 H3 exStat.
  assert (G : getfield coreStatus 18 16 = exStat)
    by (unfold exStat; rewrite getfield_div_mod by lia; reflexivity).
  unfold isTargetExceptionState. rewrite G.
  destruct (Z.eqb_spec exStat 0) as [E0 | E0].
  - repeat split; intros; simpl in *; try discriminate; try lia; reflexivity.
  - repeat split; intros; try reflexivity; try lia;
    repeat match goal with
           | |- context [Z.eqb ?a ?b] => destruct (Z.eqb_spec a b)
           end; subst; try reflexivity; congruence.
Qed.

Lemma isTargetExceptionState_spec_witness :
  2 <> 3 /\ 2 <> 4 /\ 3 <> 4 /\
  isTargetExceptionState (mk_platform 8 2 3 4) (3 * 2 ^ 16) 0
  = (true, TARGET_SIGNAL_FPE).
Proof.
  split; [lia |]. split; [lia |]. split; [lia |].
  destruct (isTargetExceptionState_spec (mk_platform 8 2 3 4) (3 * 2 ^ 16) 0)
    as (_ & _ & _ & HF & _ & _); simpl; try lia.
  apply HF; vm_compute; [intros Hc; discriminate | reflexivity].
Defined.

(** ** Strings *)

Lemma substring_length (str : string) (n m : nat) :
  (n + m <= String.length str)%nat -> String.length (String.substring n m str) = m.
Proof.
  revert n m. induction str as [| c str IH]; intros n m H.
  - simpl in H. assert (n = 0 /\ m = 0)%nat as [-> ->] by lia. reflexivity.
  - destruct n as [| n].
    + destruct m as [| m]; [reflexivity |]. simpl in *.
      f_equal. apply IH. lia.
    + simpl in *. apply IH. lia.
Qed.

Lemma substring_prefix (str : string) (n m k : nat) :
  (k <= m)%nat ->
  String.substring 0 k (String.substring n m str) = String.substring n k str.
Proof.
  revert n m k. induction str as [| c str IH]; intros n m k H.
  - destruct n, m, k; reflexivity.
  - destruct n as [| n].
    + destruct m as [| m]; destruct k as [| k]; try reflexivity; try lia.
      simpl. f_equal. apply IH. lia.
    + simpl. apply IH. exact H.
Qed.

(** Claim C9: the [qXfer:osdata:read] reply for a document of size [S]:
    [l] alone when [offset >= S]; [m] followed by exactly [length]
    characters from [offset] when [offset + length < S]; otherwise [l]
    followed by the remaining [S - offset] characters. The document is the
    one built at offset 0 and kept for the following requests. *)
Theorem rspOsDataProcesses_reply (cores : list Z) (offset length : nat)
    (s : server) :
  let doc := if (offset =? 0)%nat then process_document cores
             else osProcessReply s in
  let S := String.length doc in
  exists reply,
    sent (rspOsDataProcesses cores offset length s) = sent s ++ [reply] /\
    ((S <= offset)%nat -> reply = "l"%string) /\
    ((offset + length < S)%nat ->
       reply = String "m" (String.substring offset length doc) /\
       String.length (String.substring offset length doc) = length) /\
    ((offset < S)%nat -> (S <= offset + length)%nat ->
       reply = String "l" (String.substring offset (S - offset) doc) /\
       String.length (String.substring offset (S - offset) doc) = (S - offset)%nat).
Proof.
  intros doc S.
  assert (Hd : osProcessReply (if (offset =? 0)%nat
                               then set_os_reply (process_document cores) s
                               else s) = doc)
    by (unfold doc; destruct (offset =? 0)%nat; reflexivity).
  unfold rspOsDataProcesses. rewrite Hd.
  eexists. split; [simpl; destruct (offset =? 0)%nat; reflexivity |].
  unfold osdata_reply, packNStr, packStr. fold S.
  destruct (Nat.leb_spec S offset) as [H1 | H1].
  - repeat split; intros; try reflexivity; lia.
  - destruct (Nat.ltb_spec length (S - offset)) as [H2 | H2].
    + repeat split; intros; try lia.
      * rewrite substring_prefix by lia. reflexivity.
      * apply substring_length. lia.
    + repeat split; intros; try lia.
      * rewrite substring_prefix by lia. reflexivity.
      * apply substring_length. lia.
Qed.

(** ** The [%x] conversion on hex digit strings *)

Lemma append_cons (c : ascii) (s1 s2 : string) :
  (String c s1 +:+ s2)%string = String c (s1 +:+ s2)%string.
Proof. reflexivity. Qed.

Lemma append_nil (s2 : string) : (EmptyString +:+ s2)%string = s2.
Proof. reflexivity. Qed.

Lemma hex_value_not_space (c : ascii) :
  hex_value c <> None -> is_space c = false.
Proof.
  intros H. destruct c as [[] [] [] [] [] [] [] []];
    try reflexivity; exfalso; apply H; reflexivity.
Qed.

Lemma hex_value_sign (c : ascii) (r : string) :
  hex_value c <> None -> scan_sign (String c r) = (false, String c r).
Proof.
  intros H. destruct c as [[] [] [] [] [] [] [] []];
    try reflexivity; exfalso; apply H; reflexivity.
Qed.

Lemma hex_value_not_x (c : ascii) :
  hex_value c <> None -> bool_decide (c = "x"%char) || bool_decide (c = "X"%char) = false.
Proof.
  intros H. destruct c as [[] [] [] [] [] [] [] []];
    try reflexivity; exfalso; apply H; reflexivity.
Qed.

Lemma skip_0x_hex (c : ascii) (d rest : string) :
  hex_value c <> None -> all_hex d = true ->
  (rest = EmptyString \/ exists t, rest = String "," t) ->
  skip_0x (String c (d ++ rest)) = String c (d ++ rest).
Proof.
  intros Hc Hd Hr. unfold skip_0x.
  destruct c as [[] [] [] [] [] [] [] []]; try reflexivity.
  destruct d as [| c2 d].
  - destruct Hr as [-> | [t ->]]; reflexivity.
  - simpl in Hd. assert (hex_value c2 <> None) as H2
      by (destruct (hex_value c2); [discriminate | discriminate Hd]).
    simpl. rewrite (hex_value_not_x c2 H2). reflexivity.
Qed.

Lemma hex_run_app (d rest : string) (acc : Z) :
  all_hex d = true -> starts_hex rest = false ->
  hex_run (d ++ rest) acc = (hex_digits_val d acc, rest).
Proof.
  revert acc. induction d as [| c d IH]; intros acc Hd Hr.
  - destruct rest as [| c r]; [reflexivity |].
    simpl in *. destruct (hex_value c); [discriminate | reflexivity].
  - simpl in *. destruct (hex_value c); [| discriminate].
    apply IH; assumption.
Qed.

Lemma scan_hex_digits (neg : bool) (d rest : string) :
  d <> EmptyString -> all_hex d = true ->
  (rest = EmptyString \/ exists t, rest = String "," t) ->
  scan_hex (sign_str neg ++ d ++ rest) =
  Some (let v := hex_digits_val d 0 in
        if Z.leb (2 ^ 32) v then 2 ^ 32 - 1
        else if neg then u32 (- v) else v, rest).
Proof.
  intros Hne Hd Hr.
  destruct d as [| c d]; [congruence |].
  assert (Hc : hex_value c <> None)
    by (simpl in Hd; destruct (hex_value c); [discriminate | discriminate Hd]).
  assert (Hd' : all_hex d = true)
    by (simpl in Hd; destruct (hex_value c); [exact Hd | discriminate]).
  assert (Hs : starts_hex rest = false)
    by (destruct Hr as [-> | [t ->]]; reflexivity).
  assert (Hrun : hex_run (String c d ++ rest) 0 = (hex_digits_val (String c d) 0, rest))
    by (apply hex_run_app; assumption).
  assert (Hw : skip_ws (String c (d ++ rest)) = String c (d ++ rest))
    by (simpl; rewrite (hex_value_not_space c Hc); reflexivity).
  assert (Hst : starts_hex (String c (d ++ rest)) = true)
    by (simpl; destruct (hex_value c); [reflexivity | congruence]).
  unfold scan_hex.
  destruct neg; cbn [sign_str]; rewrite ?append_cons, ?append_nil.
  - change (skip_ws (String "-" (String c (d ++ rest))))
      with (String "-" (String c (d ++ rest))).
    change (scan_sign (String "-" (String c (d ++ rest))))
      with (true, String c (d ++ rest)).
    cbv iota beta.
    rewrite (skip_0x_hex c d rest Hc Hd' Hr), Hst.
    rewrite append_cons in Hrun. rewrite Hrun. reflexivity.
  - rewrite Hw, (hex_value_sign c _ Hc).
    cbv iota beta.
    rewrite (skip_0x_hex c d rest Hc Hd' Hr), Hst.
    rewrite append_cons in Hrun. rewrite Hrun. reflexivity.
Qed.

Lemma append_nil_r (s1 : string) : (s1 +:+ EmptyString)%string = s1.
Proof. induction s1 as [| c s1 IH]; [reflexivity |]. rewrite append_cons, IH. reflexivity. Qed.

Lemma scan_lit_same (c : ascii) (r : string) : scan_lit c (String c r) = Some r.
Proof. unfold scan_lit. rewrite bool_decide_eq_true_2 by reflexivity. reflexivity. Qed.

Lemma scan_hex_digits_small (neg : bool) (d rest : string) :
  d <> EmptyString -> all_hex d = true -> hex_digits_val d 0 < 2 ^ 32 ->
  (rest = EmptyString \/ exists t, rest = String "," t) ->
  scan_hex (sign_str neg +:+ d +:+ rest)%string =
  Some (if neg then u32 (- hex_digits_val d 0) else hex_digits_val d 0, rest).
Proof.
  intros Hne Hd Hlt Hr. rewrite scan_hex_digits by assumption.
  cbv zeta. destruct (Z.leb_spec (2 ^ 32) (hex_digits_val d 0)); [lia |].
  reflexivity.
Qed.

Lemma scan_hex_digits_plain (d rest : string) :
  d <> EmptyString -> all_hex d = true -> hex_digits_val d 0 < 2 ^ 32 ->
  (rest = EmptyString \/ exists t, rest = String "," t) ->
  scan_hex (d +:+ rest)%string = Some (hex_digits_val d 0, rest).
Proof. exact (scan_hex_digits_small false d rest). Qed.

(** Claim C8: for a File-I/O reply [F<result>,<errno>] (the result with an
    optional minus sign, both fields hex numbers of at most 32 bits, and
    the packet ending there or continuing with [,C]), [rspFileIOreply]
    writes the result into r0 (a negative result as its 32-bit two's
    complement) and the errno into r3; for [F<result>] alone it writes only
    r0. *)
Theorem rspFileIOreply_regs (neg : bool) (rd ed tail : string) (s : server) :
  rd <> EmptyString -> all_hex rd = true -> hex_digits_val rd 0 < 2 ^ 32 ->
  ed <> EmptyString -> all_hex ed = true -> hex_digits_val ed 0 < 2 ^ 32 ->
  (tail = EmptyString \/ exists t, tail = String "," t) ->
  let r := if neg then u32 (- hex_digits_val rd 0) else hex_digits_val rd 0 in
  rspFileIOreply ("F" +:+ sign_str neg +:+ rd +:+ "," +:+ ed +:+ tail)%string s
  = writeGpr 3 (hex_digits_val ed 0) (writeGpr 0 r s) /\
  rspFileIOreply ("F" +:+ sign_str neg +:+ rd)%string s = writeGpr 0 r s.
Proof.
  intros Hrne Hrd Hrlt Hene Hed Helt Ht r.
  rewrite !append_cons, !append_nil.
  split.
  - unfold rspFileIOreply, scan_F2. rewrite scan_lit_same.
    rewrite (scan_hex_digits_small neg rd (String "," (ed +:+ tail)))
      by (try assumption; right; eexists; reflexivity).
    rewrite scan_lit_same.
    rewrite <- (append_nil (ed +:+ tail)).
    change EmptyString with (sign_str false).
    rewrite (scan_hex_digits_small false ed tail) by assumption.
    reflexivity.
  - assert (He : (sign_str neg +:+ rd)%string = (sign_str neg +:+ rd +:+ EmptyString)%string)
      by (rewrite append_nil_r; reflexivity).
    unfold rspFileIOreply, scan_F2, scan_F1. rewrite scan_lit_same, He.
    rewrite (scan_hex_digits_small neg rd EmptyString)
      by (try assumption; left; reflexivity).
    reflexivity.
Qed.

Lemma rspFileIOreply_regs_witness :
  let s := mk_server (mk_core (fun _ => 0) (fun _ => 0) 0 0 0 0 0 true) ∅ true [] []
                     EmptyString [] in
  rspFileIOreply ("F" +:+ sign_str true +:+ "1" +:+ "," +:+ "9" +:+ EmptyString)%string s
  = writeGpr 3 9 (writeGpr 0 (u32 (-1)) s) /\
  rspFileIOreply ("F" +:+ sign_str true +:+ "1")%string s = writeGpr 0 (u32 (-1)) s.
Proof.
  intros s.
  apply (rspFileIOreply_regs true "1" "9" EmptyString s);
    try discriminate; try reflexivity; left; reflexivity.
Defined.

(** ** Matchpoint packets *)

Lemma scan_1d_digit (c : ascii) (r : string) :
  c = "0"%char \/ c = "2"%char ->
  scan_1d (String c r) = Some (Z.of_nat (nat_of_ascii c) - 48, r).
Proof. intros [-> | ->]; reflexivity. Qed.

Lemma scan_matchpoint_hex (lead : ascii) (ad : string) :
  ad <> EmptyString -> all_hex ad = true -> hex_digits_val ad 0 < 2 ^ 32 ->
  scan_matchpoint lead (String lead (String "0" (String "," (ad +:+ ",2"))))%string
  = Some (0, hex_digits_val ad 0, 2).
Proof.
  intros Hne Had Hlt. unfold scan_matchpoint.
  rewrite scan_lit_same, scan_1d_digit by auto.
  change (Z.of_nat (nat_of_ascii "0") - 48) with 0.
  rewrite scan_lit_same.
  rewrite (scan_hex_digits_plain ad ",2")
    by (try assumption; right; eexists; reflexivity).
  rewrite scan_lit_same, scan_1d_digit by auto.
  reflexivity.
Qed.

Lemma write16_read16 (m : Z -> Z) (a x : Z) :
  0 <= m a < 256 -> 0 <= m (a + 1) < 256 ->
  write16 m a (read16 m a) x = m x.
Proof.
  intros H0 H1. unfold write16, read16, upd.
  destruct (Z.eqb_spec x (a + 1)) as [-> | Hx1].
  - rewrite Z.mul_comm, Z.div_add by lia.
    rewrite Z.div_small by lia. simpl. apply Z.mod_small; lia.
  - destruct (Z.eqb_spec x a) as [-> | Hx0]; [| reflexivity].
    rewrite Z.mul_comm, Z.mod_add by lia. apply Z.mod_small; lia.
Qed.

Lemma write16_twice (m : Z -> Z) (a v w x : Z) :
  write16 (write16 m a v) a w x = write16 m a w x.
Proof.
  unfold write16, upd.
  destruct (Z.eqb_spec x (a + 1)); [reflexivity |].
  destruct (Z.eqb_spec x a); reflexivity.
Qed.

(** Claim C4: for an address [A] (hex digits, at most 32 bits) with no
    memory-breakpoint entry, the packet [Z0,A,2] followed by [z0,A,2]
    leaves the target memory as it was (in particular the 16-bit word at
    [A]) and the matchpoint table as it was, and both packets reply [OK];
    [z0,A,2] for an address without an entry replies [OK] and changes
    nothing else. *)
Theorem matchpoint_insert_remove (ad : string) (s : server) :
  ad <> EmptyString -> all_hex ad = true -> hex_digits_val ad 0 < 2 ^ 32 ->
  mp_lookup BP_MEMORY (hex_digits_val ad 0) (mpHash s) = None ->
  0 <= mem (target s) (hex_digits_val ad 0) < 256 ->
  0 <= mem (target s) (hex_digits_val ad 0 + 1) < 256 ->
  let A := hex_digits_val ad 0 in
  let s1 := rspInsertMatchpoint ("Z0," +:+ ad +:+ ",2")%string s in
  let s2 := rspRemoveMatchpoint ("z0," +:+ ad +:+ ",2")%string s1 in
  readMem16 s2 A = readMem16 s A /\
  (forall x, mem (target s2) x = mem (target s) x) /\
  mpHash s2 = mpHash s /\
  sent s1 = sent s ++ ["OK"%string] /\
  sent s2 = sent s ++ ["OK"%string; "OK"%string] /\
  rspRemoveMatchpoint ("z0," +:+ ad +:+ ",2")%string s = putPkt "OK" s.
Proof.
  intros Hne Had Hlt Hnone Hb0 Hb1 A s1 s2.
  assert (Hz : forall lead,
    (String lead (String "0" (String "," EmptyString)) +:+ ad +:+ ",2")%string
    = String lead (String "0" (String "," (ad +:+ ",2"))))
    by reflexivity.
  assert (Hins : s1 = putPkt "OK"
    (writeMem16 A ATDSP_BKPT_INSTR
       (set_mp (mp_add BP_MEMORY A (readMem16 s A) (mpHash s)) s))).
  { unfold s1, rspInsertMatchpoint. rewrite (Hz "Z"%char).
    rewrite scan_matchpoint_hex by assumption. reflexivity. }
  assert (Hrm : forall t, rspRemoveMatchpoint ("z0," +:+ ad +:+ ",2")%string t =
    putPkt "OK" (match mp_remove BP_MEMORY A (mpHash t) with
                 | Some (instr, tb) => writeMem16 A instr (set_mp tb t)
                 | None => t
                 end)).
  { intros t. unfold rspRemoveMatchpoint. rewrite (Hz "z"%char).
    rewrite scan_matchpoint_hex by assumption. reflexivity. }
  assert (Hmp : mp_remove BP_MEMORY A
                  (mp_add BP_MEMORY A (readMem16 s A) (mpHash s))
                = Some (readMem16 s A, mpHash s)).
  { unfold mp_remove, mp_add. rewrite lookup_insert_eq.
    rewrite delete_insert_id by exact Hnone. reflexivity. }
  assert (Hmem : forall x, mem (target s2) x = mem (target s) x).
  { intros x. unfold s2. rewrite Hrm, Hins. simpl mpHash. rewrite Hmp.
    simpl. rewrite write16_twice. apply write16_read16; assumption. }
  split; [| split; [exact Hmem | split; [| split; [| split]]]].
  - unfold readMem16, read16. rewrite !Hmem. reflexivity.
  - unfold s2. rewrite Hrm, Hins. simpl mpHash. rewrite Hmp. reflexivity.
  - rewrite Hins. reflexivity.
  - unfold s2. rewrite Hrm, Hins. simpl mpHash. rewrite Hmp. simpl.
    rewrite <- app_assoc. reflexivity.
  - rewrite Hrm. unfold mp_remove. unfold mp_lookup in Hnone.
    unfold A. rewrite Hnone. reflexivity.
Qed.

Lemma matchpoint_insert_remove_witness :
  let s := mk_server (mk_core (fun _ => 7) (fun _ => 0) 0 0 0 0 0 true) ∅ false
                     [] [] EmptyString [] in
  let A := hex_digits_val "1f0" 0 in
  let s1 := rspInsertMatchpoint ("Z0," +:+ "1f0" +:+ ",2")%string s in
  let s2 := rspRemoveMatchpoint ("z0," +:+ "1f0" +:+ ",2")%string s1 in
  readMem16 s2 A = readMem16 s A /\
  (forall x, mem (target s2) x = mem (target s) x) /\
  mpHash s2 = mpHash s /\
  sent s1 = sent s ++ ["OK"%string] /\
  sent s2 = sent s ++ ["OK"%string; "OK"%string] /\
  rspRemoveMatchpoint ("z0," +:+ "1f0" +:+ ",2")%string s = putPkt "OK" s.
Proof.
  intros s.
  apply (matchpoint_insert_remove "1f0" s);
    try discriminate; try reflexivity; simpl; lia.
Defined.

(** ** The dispatcher and the running flag *)

Lemma rspInsertMatchpoint_running (p : string) (s : server) :
  fIsTargetRunning (rspInsertMatchpoint p s) = fIsTargetRunning s.
Proof. unfold rspInsertMatchpoint. repeat case_match; reflexivity. Qed.

Lemma rspRemoveMatchpoint_running (p : string) (s : server) :
  fIsTargetRunning (rspRemoveMatchpoint p s) = fIsTargetRunning s.
Proof. unfold rspRemoveMatchpoint. repeat case_match; reflexivity. Qed.

Lemma rspFileIOreply_sent (p : string) (s : server) :
  sent (rspFileIOreply p s) = sent s.
Proof. unfold rspFileIOreply. repeat case_match; reflexivity. Qed.

Lemma rspVpkt_running (p : string) (s : server) :
  fIsTargetRunning (rspVpkt p s) = fIsTargetRunning s.
Proof. unfold rspVpkt. repeat case_match; reflexivity. Qed.

Lemma rspReadMem_running (n : Z) (p : string) (s : server) :
  fIsTargetRunning (rspReadMem n p s) = fIsTargetRunning s.
Proof. unfold rspReadMem. repeat case_match; reflexivity. Qed.

Lemma rspWriteMem_running (p : string) (s s' : server) :
  rspWriteMem p s = Some s' -> fIsTargetRunning s' = fIsTargetRunning s.
Proof. unfold rspWriteMem. intros H. repeat case_match; simplify_eq; reflexivity. Qed.

(** The trap redirection, entered with the flag cleared, leaves it
    cleared or sends nothing (it resumes the target only after printing on
    the host terminal). *)
Lemma redirectSdioOnTrap_stopped (E : rsp_env) (pd : string) (n : Z) (s : server) :
  fIsTargetRunning s = false ->
  fIsTargetRunning (redirectSdioOnTrap E pd n s) = false \/
  sent (redirectSdioOnTrap E pd n s) = sent s.
Proof.
  intros Hs. unfold redirectSdioOnTrap.
  repeat case_match; cbn; auto.
Qed.

(** The step engine, given a trap redirection of that kind, ends with
    the flag cleared or without having sent anything. *)
Lemma rspStep_stopped (P : platform) (r : Z -> server -> server)
    (run : core -> core) (addr : Z) (s s' : server) :
  (forall n s0, fIsTargetRunning s0 = false ->
     fIsTargetRunning (r n s0) = false \/ sent (r n s0) = sent s0) ->
  rspStep P r run addr s = Some s' ->
  fIsTargetRunning s' = false \/ sent s' = sent s.
Proof.
  intros Hr H. unfold rspStep in H.
  repeat case_match; simplify_eq; cbn; auto.
  destruct (Hr (getfield (readMem16 s (readPc s)) 15 10) (set_running false s))
    as [Hf | Hf]; [reflexivity | left; exact Hf | right; exact Hf].
Qed.

(** The continue engine ends with the flag cleared or without having
    sent anything. *)
Lemma rspContinue_addr_stopped (E : rsp_env) (pd : string) (addr : Z) (s : server) :
  fIsTargetRunning (rspContinue_addr E pd addr s) = false \/
  sent (rspContinue_addr E pd addr s) = sent s.
Proof.
  unfold rspContinue_addr.
  set (s1 := if fIsTargetRunning s then s
             else if negb (halted (target s)) then set_running true s
             else targetResume (writePc addr s)).
  assert (Hs1 : sent s1 = sent s) by (unfold s1; repeat case_match; reflexivity).
  set (s2 := set_target (cont_poll E (target s1)) s1).
  assert (Hs2 : sent s2 = sent s) by exact Hs1.
  clearbody s1. clearbody s2.
  repeat case_match; cbn; auto.
  all: match goal with
       | |- context [redirectSdioOnTrap ?E' ?pd' ?n (set_running false ?s0)] =>
           destruct (redirectSdioOnTrap_stopped E' pd' n (set_running false s0) eq_refl)
             as [Hf | Hf]; [left; exact Hf | right; rewrite Hf; exact Hs2]
       end.
Qed.

Lemma rspCommand_stopped (E : rsp_env) (p : string) (s : server) :
  fIsTargetRunning (rspCommand E p s) = false \/
  fIsTargetRunning (rspCommand E p s) = fIsTargetRunning s.
Proof. unfold rspCommand. repeat case_match; cbn; auto. Qed.

(** Claim C5 (counterexample): the packet [T1] is answered [OK], which is
    not a stop packet, and the running flag stays false. *)
Theorem rspClientRequest_T_not_stop :
  let P := mk_platform 16 1 2 3 in
  let E := mk_rsp_env (fun c => c) (fun c => c) 4096 false 0x1a2 1 2 3 4 5 6 7 8
             (fun d => d) (fun c => (true, c)) (fun _ c => (c, "OK"%string))
             (fun _ c d => Some (c, d, [])) in
  let s := mk_server (mk_core (fun _ => 0) (fun _ => 0) 0 0 0 0 0 true) ∅ false
                     [] [] EmptyString [] in
  match rspClientRequest P E "T1" s with
  | Some s' => sent s' = sent s ++ ["OK"%string] /\
               is_stop_packet "OK" = false /\ fIsTargetRunning s' = false
  | None => False
  end.
Proof. vm_compute. repeat split. Qed.

(** Claim C5 (amended): a request handled by the dispatcher while the
    target is stopped (the main loop calls [rspClientRequest] once the
    running flag is false) leaves the flag false when the handling
    returns, whenever it has sent a reply, stop packet or not; in
    particular the flag is false after every stop packet. All packets are
    covered: the continue and step engines, the trap redirection, [qRcmd]
    and the other handlers, for any behaviour of the target and of the
    code outside the sources (the parameters in [E]). *)
Theorem rspClientRequest_reply_stopped (P : platform) (E : rsp_env)
    (p : string) (s s' : server) :
  fIsTargetRunning s = false ->
  rspClientRequest P E p s = Some s' ->
  sent s' <> sent s ->
  fIsTargetRunning s' = false.
Proof.
  intros Hrun H Hsent. destruct p as [| c0 rest].
  { cbn in H. injection H as <-. exact Hrun. }
  set (p := String c0 rest) in *. unfold rspClientRequest in H. cbn in H.
  repeat case_match; simplify_eq; try assumption; try reflexivity.
  all: first
    [ (* c *)
      unfold rspContinue_except in Hsent |- *; case_match; [contradiction |];
      destruct (rspContinue_addr_stopped E p (packet_addr "c" p s) s) as [Hf | Hf];
      [exact Hf | contradiction]
    | (* F *) exfalso; apply Hsent; apply rspFileIOreply_sent
    | (* g, G, H, p, P, Q, X *)
      unfold rspOtherRequest in *; repeat case_match; simplify_eq; exact Hrun
    | (* m *) rewrite rspReadMem_running; exact Hrun
    | (* M *) rewrite (rspWriteMem_running _ _ _ H); exact Hrun
    | (* q *)
      unfold rspQuery in *; case_match;
      [ injection H as <-;
        destruct (rspCommand_stopped E p s) as [Hf | Hf]; [exact Hf | congruence]
      | unfold rspOtherRequest in *; repeat case_match; simplify_eq; exact Hrun ]
    | (* s *)
      unfold rspStep_except in H; destruct (negb (starts_with "s" p));
      [injection H as <-; exact Hrun |];
      destruct (rspStep_stopped P (redirectSdioOnTrap E p) (step_run E)
                  (packet_addr "s" p s) s s'
                  (redirectSdioOnTrap_stopped E p) H) as [Hf | Hf];
      [exact Hf | contradiction]
    | (* v *) rewrite rspVpkt_running; exact Hrun
    | rewrite rspRemoveMatchpoint_running; exact Hrun
    | rewrite rspInsertMatchpoint_running; exact Hrun ].
Qed.

Lemma rspClientRequest_reply_stopped_witness :
  let P := mk_platform 16 1 2 3 in
  let E := mk_rsp_env (fun c => c) (fun c => c) 4096 false 0x1a2 1 2 3 4 5 6 7 8
             (fun d => d) (fun c => (true, c)) (fun _ c => (c, "OK"%string))
             (fun _ c d => Some (c, d, [])) in
  let s := mk_server (mk_core (fun a => if Z.eqb a 0x100 then 0xc2
                                       else if Z.eqb a 0x101 then 0x01 else 0)
                              (fun _ => 0) 0x102 0 0 0 0 true) ∅ false
                     [] [] EmptyString [] in
  match rspClientRequest P E "c" s with
  | Some s' => sent s' = ["S05"%string] /\ fIsTargetRunning s' = false
  | None => False
  end.
Proof.
  intros P E s.
  destruct (rspClientRequest P E "c" s) as [s' |] eqn:Hc;
    [| vm_compute in Hc; discriminate Hc].
  split.
  - vm_compute in Hc. injection Hc as <-. reflexivity.
  - apply (rspClientRequest_reply_stopped P E "c" s s').
    + reflexivity.
    + exact Hc.
    + vm_compute in Hc. injection Hc as <-. vm_compute. discriminate.
Defined.

(** ** Memory lemmas for the step engine *)

Lemma write16_frame (m : Z -> Z) (a v x : Z) :
  x <> a -> x <> a + 1 -> write16 m a v x = m x.
Proof.
  intros H0 H1. unfold write16, upd.
  rewrite (proj2 (Z.eqb_neq _ _) H1), (proj2 (Z.eqb_neq _ _) H0). reflexivity.
Qed.

Lemma read16_write16_same (m : Z -> Z) (a v : Z) :
  0 <= v < 65536 -> read16 (write16 m a v) a = v.
Proof.
  intros Hv. unfold read16, write16, upd.
  rewrite Z.eqb_refl.
  destruct (Z.eqb_spec a (a + 1)) as [Hc | _]; [lia |].
  rewrite Z.eqb_refl.
  rewrite (Z.mod_small (v / 256) 256) by (split; [apply Z.div_pos | apply Z.div_lt_upper_bound]; lia).
  Z.div_mod_to_equations. lia.
Qed.

Lemma read16_write16_other (m : Z -> Z) (a v x : Z) :
  x <> a -> x <> a + 1 -> x + 1 <> a ->
  read16 (write16 m a v) x = read16 m x.
Proof.
  intros H0 H1 H2. unfold read16.
  rewrite !write16_frame by lia. reflexivity.
Qed.

Lemma write_burst_outside (m : Z -> Z) (a : Z) (buf : list Z) (x : Z) :
  x < a -> write_burst m a buf x = m x.
Proof.
  revert m a. induction buf as [| b bs IH]; intros m a Hx; [reflexivity |].
  simpl. rewrite IH by lia. unfold upd.
  rewrite (proj2 (Z.eqb_neq x a)) by lia. reflexivity.
Qed.

Lemma write_burst_inside (m : Z -> Z) (a : Z) (buf : list Z) (x : Z) :
  a <= x < a + Z.of_nat (length buf) ->
  write_burst m a buf x = nth (Z.to_nat (x - a)) buf 0.
Proof.
  revert m a. induction buf as [| b bs IH]; intros m a Hx; simpl in Hx; [lia |].
  simpl. destruct (Z.eqb_spec x a) as [-> | Hne].
  - rewrite write_burst_outside by lia. unfold upd. rewrite Z.eqb_refl.
    rewrite Z.sub_diag. reflexivity.
  - rewrite IH by lia.
    replace (Z.to_nat (x - a)) with (S (Z.to_nat (x - (a + 1)))) by lia.
    reflexivity.
Qed.

Lemma read_burst_nth (m : Z -> Z) (a : Z) (n k : nat) :
  (k < n)%nat -> nth k (read_burst m a n) 0 = m (a + Z.of_nat k).
Proof.
  intros Hk. unfold read_burst.
  rewrite (nth_indep _ 0 (m (a + Z.of_nat 0)))
    by (rewrite length_map, length_seq; lia).
  rewrite (map_nth (fun k0 => m (a + Z.of_nat k0)) (seq 0 n) 0%nat k).
  rewrite seq_nth by lia. reflexivity.
Qed.

Lemma length_read_burst (m : Z -> Z) (a : Z) (n : nat) :
  length (read_burst m a n) = n.
Proof. unfold read_burst. rewrite length_map, length_seq. reflexivity. Qed.

Lemma write_read_burst (m m0 : Z -> Z) (n : nat) (x : Z) :
  0 <= x < Z.of_nat n -> write_burst m 0 (read_burst m0 0 n) x = m0 x.
Proof.
  intros Hx. rewrite write_burst_inside by (rewrite length_read_burst; lia).
  rewrite read_burst_nth by lia. f_equal. lia.
Qed.

(** ** The pieces of the step engine *)

Lemma plant_hidden_frame (a : Z) (s : server) :
  resumed (plant_hidden a s) = resumed s /\
  fIVTSaveBuff (plant_hidden a s) = fIVTSaveBuff s /\
  iret (target (plant_hidden a s)) = iret (target s) /\
  gpr (target (plant_hidden a s)) = gpr (target s) /\
  (forall x, x <> a -> x <> a + 1 ->
     mem (target (plant_hidden a s)) x = mem (target s) x).
Proof.
  unfold plant_hidden, putBreakPointInstruction, writeMem16.
  case_match; simpl; repeat split; intros x Hx0 Hx1; apply write16_frame; assumption.
Qed.

Lemma remove_hidden_frame (a : Z) (s s' : server) :
  remove_hidden a s = Some s' ->
  resumed s' = resumed s /\
  (forall x, x <> a -> x <> a + 1 -> mem (target s') x = mem (target s) x).
Proof.
  unfold remove_hidden. intros H. repeat case_match; simplify_eq.
  split; [reflexivity |]. intros x Hx0 Hx1. apply write16_frame; assumption.
Qed.

Abbreviation plant_step skip :=
  (fun s i => let a := Z.of_nat i * ATDSP_INST32LEN in
              if skip a then s else putBreakPointInstruction a s).

Lemma plant_fold_frame (skip : Z -> bool) (l : list nat) (s : server) :
  resumed (foldl (plant_step skip) s l) = resumed s /\
  fIVTSaveBuff (foldl (plant_step skip) s l) = fIVTSaveBuff s.
Proof.
  revert s. induction l as [| i l IH]; intros s; [split; reflexivity |].
  simpl. rewrite (proj1 (IH _)), (proj2 (IH _)).
  destruct (skip _); split; reflexivity.
Qed.

Lemma plant_fold_bkpt (skip : Z -> bool) (l : list nat) (s : server) (i : nat) :
  (In i l /\ skip (Z.of_nat i * ATDSP_INST32LEN) = false) \/
  read16 (mem (target s)) (Z.of_nat i * ATDSP_INST32LEN) = ATDSP_BKPT_INSTR ->
  read16 (mem (target (foldl (plant_step skip) s l))) (Z.of_nat i * ATDSP_INST32LEN)
  = ATDSP_BKPT_INSTR.
Proof.
  revert s. induction l as [| j l IH]; intros s H.
  - destruct H as [[[] _] | H]. exact H.
  - simpl. apply IH.
    destruct (Nat.eq_dec i j) as [-> | Hij].
    + destruct H as [[_ Hs] | H].
      * right. cbv zeta. rewrite Hs.
        unfold putBreakPointInstruction, writeMem16. simpl.
        apply read16_write16_same. unfold ATDSP_BKPT_INSTR. lia.
      * right. cbv zeta. destruct (skip (Z.of_nat j * ATDSP_INST32LEN)); [exact H |].
        unfold putBreakPointInstruction, writeMem16. simpl.
        apply read16_write16_same. unfold ATDSP_BKPT_INSTR. lia.
    + destruct H as [[[Hin | Hin] Hs] | H]; [congruence | left; split; assumption |].
      right. cbv zeta. destruct (skip (Z.of_nat j * ATDSP_INST32LEN)); [exact H |].
      unfold putBreakPointInstruction, writeMem16. simpl.
      rewrite read16_write16_other; [exact H | ..];
        unfold ATDSP_INST32LEN; lia.
Qed.

Lemma plant_ivt_frame (P : platform) (skip : Z -> bool) (s : server) :
  resumed (plant_ivt P skip s) = resumed s /\
  fIVTSaveBuff (plant_ivt P skip s) = fIVTSaveBuff s.
Proof. apply plant_fold_frame. Qed.

Lemma plant_ivt_bkpt (P : platform) (skip : Z -> bool) (s : server) (i : Z) :
  1 <= i < ATDSP_NUM_ENTRIES_IN_IVT P -> skip (i * 4) = false ->
  read16 (mem (target (plant_ivt P skip s))) (i * 4) = ATDSP_BKPT_INSTR.
Proof.
  intros Hi Hs. unfold plant_ivt.
  replace (i * 4) with (Z.of_nat (Z.to_nat i) * ATDSP_INST32LEN)
    by (unfold ATDSP_INST32LEN; lia).
  apply plant_fold_bkpt. left. split.
  - apply in_seq. lia.
  - rewrite <- Hs. f_equal. unfold ATDSP_INST32LEN. lia.
Qed.

Lemma resume_and_wait_spec (run : core -> core) (s s' : server) :
  resume_and_wait run s = Some s' ->
  resumed s' = resumed s ++ [target s] /\ fIVTSaveBuff s' = fIVTSaveBuff s.
Proof.
  unfold resume_and_wait. intros H. case_match; simplify_eq. split; reflexivity.
Qed.

Lemma restoreIVT_mem (s : server) (m0 : Z -> Z) (n : nat) (x : Z) :
  fIVTSaveBuff s = read_burst m0 0 n -> 0 <= x < Z.of_nat n ->
  mem (target (restoreIVT s)) x = m0 x.
Proof.
  intros Hb Hx. unfold restoreIVT. simpl. rewrite Hb.
  apply write_read_burst. exact Hx.
Qed.

Lemma jump_target_ext (op ext pc_ bk : Z) (is32 : bool) (s1 s2 : server) :
  iret (target s1) = iret (target s2) -> gpr (target s1) = gpr (target s2) ->
  jump_target op ext pc_ bk is32 s1 = jump_target op ext pc_ bk is32 s2.
Proof.
  intros Hi Hg. unfold jump_target, readGpr. rewrite Hi, Hg. reflexivity.
Qed.

(** ** The single-step engine *)

(** Claim C2 (failing input): a user breakpoint at [0x202] (the table maps
    [(BP_MEMORY, 0x202)] to the original NOP [0x01a2], memory holds BKPT),
    and a step of the 16-bit NOP at [0x200] that halts on that breakpoint:
    the sequential breakpoint coincides with the user's, so the step's
    cleanup removes the user's entry from the table and writes the original
    opcode back; the user breakpoint is gone after the step. *)
Theorem rspStep_drops_user_breakpoint :
  let P := mk_platform 8 2 3 4 in
  let m := fun x : Z =>
             if x =? 0x200 then 0xa2 else if x =? 0x201 then 0x01
             else if x =? 0x202 then 0xc2 else if x =? 0x203 then 0x01 else 0 in
  let s := mk_server (mk_core m (fun _ => 0) 0x200 0 0 0 0 true)
                     {[ (BP_MEMORY, 0x202) := 0x01a2 ]} false [] [] EmptyString [] in
  let run := fun c => set_pc 0x204 c in
  mp_lookup BP_MEMORY 0x202 (mpHash s) = Some 0x01a2 /\
  readMem16 s 0x202 = ATDSP_BKPT_INSTR /\
  match rspStep P (fun _ s => s) run 0x200 s with
  | Some s' =>
      mp_lookup BP_MEMORY 0x202 (mpHash s') = None /\
      mpHash s' = ∅ /\
      readMem16 s' 0x202 = 0x01a2 /\
      readPc s' = 0x202 /\
      sent s' = ["S05"%string]
  | None => False
  end.
Proof. vm_compute. repeat split. Qed.

(** Claim C3 (counterexample): interrupts disabled (STATUS bit 1 set) and
    nothing latched ([ILAT = 0]); stepping the NOP at [0x200] still plants
    BKPT in the interrupt vector entries: the core resumed with BKPT at
    address 4 (entry 1), which held 0 before the step. *)
Theorem rspStep_plants_ivt_with_interrupts_off :
  let P := mk_platform 8 2 3 4 in
  let m := fun x : Z => if x =? 0x200 then 0xa2 else if x =? 0x201 then 0x01 else 0 in
  let s := mk_server (mk_core m (fun _ => 0) 0x200 2 0 0 0 true)
                     ∅ false [] [] EmptyString [] in
  let run := fun c => set_pc 0x204 c in
  getfield (status (target s)) 1 1 = 1 /\
  Z.land (Z.lnot (imask (target s))) (ilat (target s)) = 0 /\
  read16 (mem (target s)) 4 = 0 /\
  match rspStep P (fun _ s => s) run 0x200 s with
  | Some s' =>
      map (fun c => read16 (mem c) 4) (resumed s') = [ATDSP_BKPT_INSTR] /\
      read16 (mem (target s')) 4 = 0
  | None => False
  end.
Proof. vm_compute. repeat split. Qed.

(** Claim C3 (amended): when a step of a non-IDLE, non-TRAP instruction
    completes, the target was resumed exactly once, with BKPT in every
    interrupt vector entry [i] for [1 <= i < N] except the one at the PC,
    whatever STATUS, IMASK and ILAT hold; the IVT saved before the resume
    is restored in one burst after the halt, so every byte of the IVT other
    than those of the sequential and jump breakpoints (whose own original
    instructions are written back from the table) is as before the step. *)
Theorem rspStep_ivt_breakpoints (P : platform) (redirect : Z -> server -> server)
    (run : core -> core) (addr : Z) (s s' : server) :
  rspStep P redirect run addr s = Some s' ->
  fst (isTargetExceptionState P (status (target s)) TARGET_SIGNAL_NONE) = false ->
  getfield (readMem16 s (readPc s)) 8 0 <> IDLE_OPCODE ->
  getfield (readMem16 s (readPc s)) 9 0 <> ATDSP_TRAP_INSTR ->
  let bk := step_bkpt_addr addr (readMem16 s addr) in
  let j := step_jump_addr addr s in
  exists c,
    resumed s' = resumed s ++ [c] /\
    (forall i, 1 <= i < ATDSP_NUM_ENTRIES_IN_IVT P -> i * 4 <> addr ->
       read16 (mem c) (i * 4) = ATDSP_BKPT_INSTR) /\
    (forall x, 0 <= x < ATDSP_NUM_ENTRIES_IN_IVT P * 4 ->
       x <> bk -> x <> bk + 1 -> x <> j -> x <> j + 1 ->
       mem (target s') x = mem (target s) x).
Proof.
  intros H Hex Hidle Htrap bk j.
  unfold rspStep in H.
  destruct (halted (target s)); cbn [negb] in H; [| discriminate H].
  destruct (isTargetExceptionState P (status (target s)) TARGET_SIGNAL_NONE)
    as [b e] eqn:E.
  simpl in Hex. subst b. cbv zeta in H.
  rewrite (proj2 (Z.eqb_neq _ _) Hidle), (proj2 (Z.eqb_neq _ _) Htrap) in H.
  cbv iota in H.
  change (readPc (writePc addr s)) with (u32 addr) in H.
  destruct (Z.eqb_spec addr (u32 addr)) as [Ha | Ha]; cbn [negb] in H;
    [| discriminate H].
  rewrite <- Ha in H.
  change (readMem16 (writePc addr s)) with (readMem16 s) in H.
  change (if is32BitsInstr (readMem16 s addr) then u32 (u32 (addr + 2) + 2)
          else u32 (addr + 2)) with bk in H.
  assert (Hj : jump_target (readMem16 s addr) (readMem16 s (addr + 2)) addr bk
                 (is32BitsInstr (readMem16 s addr)) (plant_hidden bk (writePc addr s))
               = j).
  { unfold j, step_jump_addr. apply jump_target_ext.
    - apply (plant_hidden_frame bk (writePc addr s)).
    - apply (plant_hidden_frame bk (writePc addr s)). }
  rewrite Hj in H. clear Hj.
  set (s3 := if j =? bk then plant_hidden bk (writePc addr s)
             else plant_hidden j (plant_hidden bk (writePc addr s))) in H.
  set (s5 := plant_ivt P (fun a => addr =? a) (saveIVT P s3)) in H.
  destruct (resume_and_wait run s5) as [s6 |] eqn:Hr; [| discriminate H].
  destruct (negb (bool_decide _ || _)); [discriminate H |].
  destruct (remove_hidden bk _) as [s9 |] eqn:H9; [| discriminate H].
  assert (Hs10 : exists s10,
            (forall x, x <> j -> x <> j + 1 -> mem (target s10) x = mem (target s9) x) /\
            resumed s10 = resumed s9 /\
            s' = rspReportException (u32 (readPc (restoreIVT s6) - ATDSP_BKPT_INSTLEN))
                   0 TARGET_SIGNAL_TRAP s10).
  { destruct (j =? bk).
    - exists s9. split; [reflexivity | split; [reflexivity |]].
      congruence.
    - destruct (remove_hidden j s9) as [s10 |] eqn:H10; [| discriminate H].
      exists s10. destruct (remove_hidden_frame j s9 s10 H10) as [R1 R2].
      split; [exact R2 | split; [exact R1 | congruence]]. }
  destruct Hs10 as [s10 [Hm10 [Hres10 ->]]].
  destruct (remove_hidden_frame bk _ s9 H9) as [Hres9 Hm9].
  destruct (resume_and_wait_spec run s5 s6 Hr) as [Hres6 Hbuf6].
  destruct (plant_ivt_frame P (fun a => addr =? a) (saveIVT P s3)) as [Hres5 Hbuf5].
  assert (Hres3 : resumed s3 = resumed s).
  { unfold s3. destruct (j =? bk).
    - apply (plant_hidden_frame bk (writePc addr s)).
    - rewrite (proj1 (plant_hidden_frame j _)).
      apply (plant_hidden_frame bk (writePc addr s)). }
  assert (Hm3 : forall x, x <> bk -> x <> bk + 1 -> x <> j -> x <> j + 1 ->
                  mem (target s3) x = mem (target s) x).
  { intros x H1 H2 H3 H4. unfold s3. destruct (j =? bk).
    - rewrite (proj2 (proj2 (proj2 (proj2 (plant_hidden_frame bk _))))) by assumption.
      reflexivity.
    - rewrite (proj2 (proj2 (proj2 (proj2 (plant_hidden_frame j _))))) by assumption.
      rewrite (proj2 (proj2 (proj2 (proj2 (plant_hidden_frame bk _))))) by assumption.
      reflexivity. }
  exists (target s5). split; [| split].
  - change (resumed s10 = resumed s ++ [target s5]).
    rewrite Hres10, Hres9. simpl resumed.
    unfold restoreIVT. simpl. rewrite Hres6.
    unfold s5 at 1. rewrite Hres5. simpl. rewrite Hres3. reflexivity.
  - intros i Hi Hne. unfold s5.
    apply plant_ivt_bkpt; [exact Hi |].
    apply Z.eqb_neq. congruence.
  - intros x Hx H1 H2 H3 H4.
    change (mem (target s10) x = mem (target s) x).
    rewrite Hm10 by assumption. rewrite Hm9 by assumption.
    change (mem (target (restoreIVT s6)) x = mem (target s) x).
    rewrite (restoreIVT_mem s6 (mem (target s3)) (ivt_bytes P) x).
    + apply Hm3; assumption.
    + rewrite Hbuf6. unfold s5. rewrite Hbuf5. reflexivity.
    + unfold ivt_bytes, ATDSP_INST32LEN. lia.
Qed.

Lemma rspStep_ivt_breakpoints_witness :
  let P := mk_platform 8 2 3 4 in
  let m := fun x : Z => if x =? 0x200 then 0xa2 else if x =? 0x201 then 0x01 else 0 in
  let s := mk_server (mk_core m (fun _ => 0) 0x200 2 0 0 0 true)
                     ∅ false [] [] EmptyString [] in
  let run := fun c => set_pc 0x204 c in
  match rspStep P (fun _ s => s) run 0x200 s with
  | Some s' =>
      exists c,
        resumed s' = resumed s ++ [c] /\
        (forall i, 1 <= i < ATDSP_NUM_ENTRIES_IN_IVT P -> i * 4 <> 0x200 ->
           read16 (mem c) (i * 4) = ATDSP_BKPT_INSTR) /\
        (forall x, 0 <= x < ATDSP_NUM_ENTRIES_IN_IVT P * 4 ->
           x <> step_bkpt_addr 0x200 (readMem16 s 0x200) ->
           x <> step_bkpt_addr 0x200 (readMem16 s 0x200) + 1 ->
           x <> step_jump_addr 0x200 s -> x <> step_jump_addr 0x200 s + 1 ->
           mem (target s') x = mem (target s) x)
  | None => False
  end.
Proof.
  intros P m s run.
  destruct (rspStep P (fun _ s => s) run 0x200 s) as [s' |] eqn:E.
  - apply (rspStep_ivt_breakpoints P (fun _ s => s) run 0x200 s s' E).
    + vm_compute. reflexivity.
    + vm_compute. discriminate.
    + vm_compute. discriminate.
  - vm_compute in E. discriminate E.
Defined.

(** ** Bit fields *)

Lemma testbit_small (a k n : Z) : 0 <= a < 2 ^ k -> k <= n -> Z.testbit a n = false.
Proof.
  intros Ha Hn. assert (0 <= k) by (destruct (Z.ltb_spec k 0); [| lia];
    rewrite Z.pow_neg_r in Ha by lia; lia).
  rewrite <- (Z.mod_small a (2 ^ k)) by lia. apply Z.mod_pow2_bits_high. lia.
Qed.

Lemma testbit_u32 (a n : Z) :
  0 <= n -> Z.testbit (u32 a) n = (n <? 32) && Z.testbit a n.
Proof.
  intros Hn. unfold u32. destruct (Z.ltb_spec n 32).
  - apply Z.mod_pow2_bits_low. lia.
  - apply Z.mod_pow2_bits_high. lia.
Qed.

Lemma shiftl_1_pred (k : Z) : 0 <= k -> Z.shiftl 1 k - 1 = Z.ones k.
Proof. intros Hk. rewrite Z.shiftl_1_l, Z.ones_equiv. lia. Qed.

Lemma getfield_src_ideal (x lt rt : Z) :
  0 <= rt <= lt -> lt <= 29 -> getfield_src x lt rt = getfield x lt rt.
Proof.
  intros H H29. unfold getfield_src, getfield. rewrite shiftl_1_pred by lia.
  apply Z.bits_inj'. intros n Hn.
  rewrite Z.shiftr_spec, Z.land_spec, Z.land_spec, Z.shiftr_spec by lia.
  rewrite !Z.testbit_ones_nonneg by lia.
  destruct (Z.ltb_spec (n + rt) (lt + 1)), (Z.ltb_spec n (lt - rt + 1));
    try lia; rewrite ?andb_true_r, ?andb_false_r; reflexivity.
Qed.

Lemma setfield_src_ideal (x lt rt val : Z) :
  0 <= rt <= lt -> lt <= 31 -> lt - rt + 1 <= 30 -> 0 <= x < 2 ^ 32 ->
  0 <= val < 2 ^ (lt - rt + 1) ->
  setfield_src x lt rt val = setfield x lt rt val.
Proof.
  intros H H31 Hw Hx Hv. unfold setfield_src, setfield.
  rewrite shiftl_1_pred by lia.
  apply Z.bits_inj'. intros n Hn.
  rewrite testbit_u32 by lia.
  rewrite !Z.lor_spec, !Z.land_spec, !testbit_u32, !Z.lnot_spec, !testbit_u32 by lia.
  rewrite !Z.shiftl_spec by lia.
  destruct (Z.ltb_spec n 32) as [H32 | H32].
  - cbn [andb]. destruct (Z.ltb_spec (n - rt) 0) as [Hr | Hr].
    + rewrite !(Z.testbit_neg_r _ (n - rt)) by lia. reflexivity.
    + rewrite Z.land_spec, !Z.testbit_ones_nonneg by lia.
      destruct (Z.ltb_spec (n - rt) (lt - rt + 1)); cbn;
        rewrite ?andb_true_r, ?andb_false_r; [reflexivity |].
      rewrite (testbit_small val (lt - rt + 1)) by lia. reflexivity.
  - cbn [andb]. rewrite (testbit_small x 32) by lia. cbn.
    rewrite (testbit_small (Z.land val (Z.ones (lt - rt + 1))) (lt - rt + 1)).
    + reflexivity.
    + rewrite Z.land_ones by lia. split; [apply Z.mod_pos_bound | apply Z.mod_pos_bound];
        apply Z.pow_pos_nonneg; lia.
    + lia.
Qed.

Lemma getfield_setfield_ideal (x hi lo v hi' lo' : Z) :
  0 <= lo <= hi -> 0 <= lo' <= hi' ->
  (0 <= v < 2 ^ (hi - lo + 1) -> getfield (setfield x hi lo v) hi lo = v) /\
  (hi' < lo \/ hi < lo' -> getfield (setfield x hi lo v) hi' lo' = getfield x hi' lo').
Proof.
  intros H H'. unfold getfield, setfield. split.
  - intros Hv. apply Z.bits_inj'. intros n Hn.
    rewrite Z.land_spec, Z.shiftr_spec, Z.lor_spec, Z.land_spec, Z.lnot_spec,
      !Z.shiftl_spec, Z.land_spec by lia.
    rewrite !Z.testbit_ones_nonneg by lia.
    replace (n + lo - lo) with n by lia.
    destruct (Z.ltb_spec n (hi - lo + 1)).
    + destruct (Z.ltb_spec (n + lo - lo) (hi - lo + 1)); [| lia].
      bits_bool.
    + rewrite (testbit_small v (hi - lo + 1) n) by lia. bits_bool.
  - intros Hd. apply Z.bits_inj'. intros n Hn.
    rewrite !Z.land_spec, !Z.shiftr_spec, Z.lor_spec, Z.land_spec, Z.lnot_spec,
      !Z.shiftl_spec by lia.
    rewrite !(Z.testbit_ones_nonneg _ n) by lia.
    destruct (Z.ltb_spec n (hi' - lo' + 1)); [| bits_bool].
    destruct (Z.ltb_spec (n + lo' - lo) 0).
    + rewrite !(Z.testbit_neg_r _ (n + lo' - lo)) by lia. bits_bool.
    + rewrite Z.land_spec, !Z.testbit_ones_nonneg by lia.
      destruct (Z.ltb_spec (n + lo' - lo) (hi - lo + 1)); [lia |]. bits_bool.
Qed.

(** The source expression of [getfield] selects bits [_lt..._rt] of
    [x]: it agrees with the bit-field form whenever [0 <= _rt <= _lt] and
    the [int] shift [1 << (_lt + 1)] does not overflow ([_lt <= 29]). *)
Theorem getfield_source_eq (x lt rt : Z) :
  0 <= rt <= lt -> lt <= 29 -> getfield_src x lt rt = getfield x lt rt.
Proof. apply getfield_src_ideal. Qed.

(** The source expression of [setfield] on a 32-bit [x], for
    [0 <= _rt <= _lt <= 31] and a field of at most 30 bits (so that the
    [int] mask computation does not overflow), with [val] fitting in the
    field, replaces bits [_lt..._rt] by [val] and keeps the others: it
    agrees with the bit-field form. *)
Theorem setfield_source_eq (x lt rt val : Z) :
  0 <= rt <= lt -> lt <= 31 -> lt - rt + 1 <= 30 -> 0 <= x < 2 ^ 32 ->
  0 <= val < 2 ^ (lt - rt + 1) ->
  setfield_src x lt rt val = setfield x lt rt val.
Proof. apply setfield_src_ideal. Qed.

(** With the source expressions, for bit ranges within bits 0..29 and
    a 32-bit [x]: a field written with [setfield] reads back with
    [getfield] as the value written (when it fits in the field), and a
    field disjoint from it reads as before. *)
Theorem getfield_setfield (x hi lo v hi' lo' : Z) :
  0 <= lo <= hi -> hi <= 29 -> 0 <= lo' <= hi' -> hi' <= 29 ->
  0 <= x < 2 ^ 32 -> 0 <= v < 2 ^ (hi - lo + 1) ->
  getfield_src (setfield_src x hi lo v) hi lo = v /\
  (hi' < lo \/ hi < lo' ->
   getfield_src (setfield_src x hi lo v) hi' lo' = getfield_src x hi' lo').
Proof.
  intros H H29 H' H29' Hx Hv.
  rewrite (setfield_src_ideal x hi lo v) by lia.
  rewrite !getfield_src_ideal by lia.
  destruct (getfield_setfield_ideal x hi lo v hi' lo' H H') as [H1 H2].
  split; [exact (H1 Hv) | exact H2].
Qed.

(** ** Stop packets *)

Lemma hexdigit_value (n : Z) :
  0 <= n < 16 -> hex_value (hexdigit n) = Some n /\ is_hex_ascii (hexdigit n) = true.
Proof.
  intros Hn. assert (Hk : exists k, n = Z.of_nat k /\ (k < 16)%nat)
    by (exists (Z.to_nat n); split; lia).
  destruct Hk as [k [-> Hk]].
  do 16 (destruct k as [| k]; [split; reflexivity |]). lia.
Qed.

(** [rspReportException] for thread 0 and a signal below 256 sends
    the stop packet [S] followed by two hex digits that decode to the
    signal, marks the target as not running, and changes neither the
    target nor the matchpoint table. *)
Theorem rspReportException_stop_packet (stoppedPC sig : Z) (s : server) :
  0 <= sig < 256 ->
  let s' := rspReportException stoppedPC 0 sig s in
  exists h1 h2,
    sent s' = sent s ++ [String "S" (String h1 (String h2 EmptyString))] /\
    is_stop_packet (String "S" (String h1 (String h2 EmptyString))) = true /\
    hex_value h1 = Some (sig / 16) /\ hex_value h2 = Some (sig mod 16) /\
    fIsTargetRunning s' = false /\ target s' = target s /\ mpHash s' = mpHash s.
Proof.
  intros Hs s'. exists (hex2Char (sig / 16)), (hex2Char (sig mod 16)).
  unfold hex2Char.
  rewrite (Z.mod_small (sig / 16)) by (split; [apply Z.div_pos | apply Z.div_lt_upper_bound]; lia).
  rewrite Z.mod_mod by lia.
  destruct (hexdigit_value (sig / 16)) as [H1 H1'];
    [split; [apply Z.div_pos | apply Z.div_lt_upper_bound]; lia |].
  destruct (hexdigit_value (sig mod 16)) as [H2 H2']; [apply Z.mod_pos_bound; lia |].
  unfold s', rspReportException, hex2Char. cbn -[hexdigit].
  rewrite (Z.mod_small (sig / 16)) by (split; [apply Z.div_pos | apply Z.div_lt_upper_bound]; lia).
  rewrite Z.mod_mod by lia.
  repeat split; try assumption.
  unfold is_stop_packet. rewrite H1', H2'. reflexivity.
Qed.

(** ** Matchpoint packets of the other types *)

Lemma is_space_digit (c : ascii) :
  (48 <= nat_of_ascii c <= 57)%nat -> is_space c = false.
Proof.
  intros Hc. unfold is_space.
  destruct (Nat.eqb_spec (nat_of_ascii c) 32); [lia |].
  destruct (Nat.leb_spec 9 (nat_of_ascii c)), (Nat.leb_spec (nat_of_ascii c) 13);
    cbn; reflexivity || lia.
Qed.

Lemma scan_1d_gen (c : ascii) (r : string) :
  (48 <= nat_of_ascii c <= 57)%nat ->
  scan_1d (String c r) = Some (Z.of_nat (nat_of_ascii c) - 48, r).
Proof.
  intros Hc. unfold scan_1d. cbn [skip_ws]. rewrite is_space_digit by exact Hc.
  destruct (Z.leb_spec 48 (Z.of_nat (nat_of_ascii c))); [| lia].
  destruct (Z.leb_spec (Z.of_nat (nat_of_ascii c)) 57); [| lia]. reflexivity.
Qed.

Lemma scan_matchpoint_gen (lead d l : ascii) (ad tail : string) :
  (48 <= nat_of_ascii d <= 57)%nat -> (48 <= nat_of_ascii l <= 57)%nat ->
  ad <> EmptyString -> all_hex ad = true -> hex_digits_val ad 0 < 2 ^ 32 ->
  scan_matchpoint lead
    (String lead (String d (String "," (ad +:+ String "," (String l tail)))))
  = Some (Z.of_nat (nat_of_ascii d) - 48, hex_digits_val ad 0,
          Z.of_nat (nat_of_ascii l) - 48).
Proof.
  intros Hd Hl Hne Had Hlt. unfold scan_matchpoint.
  rewrite scan_lit_same, scan_1d_gen by exact Hd.
  rewrite scan_lit_same.
  rewrite (scan_hex_digits_plain ad (String "," (String l tail)))
    by (try assumption; right; eexists; reflexivity).
  rewrite scan_lit_same, scan_1d_gen by exact Hl.
  reflexivity.
Qed.

(** A [Z] or [z] packet of type 1 to 4 (hardware breakpoint and
    watchpoints) is answered with the empty packet and changes nothing
    else; a type digit from 5 to 9 is answered with [E01], and so is a
    packet whose type field is not a digit. *)
Theorem matchpoint_unsupported_types (d l : ascii) (ad tail : string) (s : server) :
  (48 <= nat_of_ascii l <= 57)%nat ->
  ad <> EmptyString -> all_hex ad = true -> hex_digits_val ad 0 < 2 ^ 32 ->
  let pZ := String "Z" (String d (String "," (ad +:+ String "," (String l tail)))) in
  let pz := String "z" (String d (String "," (ad +:+ String "," (String l tail)))) in
  let ty := Z.of_nat (nat_of_ascii d) - 48 in
  (1 <= ty <= 4 ->
     rspInsertMatchpoint pZ s = putPkt EmptyString s /\
     rspRemoveMatchpoint pz s = putPkt EmptyString s) /\
  (5 <= ty <= 9 ->
     rspInsertMatchpoint pZ s = putPkt "E01" s /\
     rspRemoveMatchpoint pz s = putPkt "E01" s) /\
  ((ty < 0 \/ 9 < ty) -> is_space d = false ->
     rspInsertMatchpoint pZ s = putPkt "E01" s /\
     rspRemoveMatchpoint pz s = putPkt "E01" s).
Proof.
  intros Hl Hne Had Hlt pZ pz ty.
  split; [| split].
  - intros Hty. unfold pZ, pz, rspInsertMatchpoint, rspRemoveMatchpoint.
    rewrite !scan_matchpoint_gen by (auto; unfold ty in Hty; lia).
    fold ty. unfold BP_MEMORY.
    destruct (Z.eqb_spec ty 0); [lia |].
    destruct (Z.leb_spec 1 ty); [| lia]. destruct (Z.leb_spec ty 4); [| lia].
    split; reflexivity.
  - intros Hty. unfold pZ, pz, rspInsertMatchpoint, rspRemoveMatchpoint.
    rewrite !scan_matchpoint_gen by (auto; unfold ty in Hty; lia).
    fold ty. unfold BP_MEMORY.
    destruct (Z.eqb_spec ty 0); [lia |].
    destruct (Z.leb_spec ty 4); [lia |]. rewrite andb_false_r.
    split; reflexivity.
  - intros Hty Hsp. unfold pZ, pz, rspInsertMatchpoint, rspRemoveMatchpoint,
      scan_matchpoint, scan_1d.
    rewrite !scan_lit_same. cbn [skip_ws]. rewrite Hsp. fold ty.
    destruct (Z.leb_spec 48 (Z.of_nat (nat_of_ascii d)));
      destruct (Z.leb_spec (Z.of_nat (nat_of_ascii d)) 57);
      cbn [andb]; try (unfold ty in Hty; lia); split; reflexivity.
Qed.

(** ** The IVT save buffer and the early paths of the step engine *)

Lemma write_burst_after (m : Z -> Z) (a : Z) (buf : list Z) (x : Z) :
  a + Z.of_nat (length buf) <= x -> write_burst m a buf x = m x.
Proof.
  revert m a. induction buf as [| b bs IH]; intros m a Hx; [reflexivity |].
  simpl in Hx |- *. rewrite IH by lia. unfold upd.
  destruct (Z.eqb_spec x a); [lia | reflexivity].
Qed.

Lemma plant_fold_frame2 (skip : Z -> bool) (l : list nat) (s : server) :
  sent (foldl (plant_step skip) s l) = sent s /\
  mpHash (foldl (plant_step skip) s l) = mpHash s /\
  pc (target (foldl (plant_step skip) s l)) = pc (target s) /\
  fIsTargetRunning (foldl (plant_step skip) s l) = fIsTargetRunning s.
Proof.
  revert s. induction l as [| i l IH]; intros s; [repeat split |].
  change (foldl (plant_step skip) s (i :: l))
    with (foldl (plant_step skip) (plant_step skip s i) l).
  destruct (IH (plant_step skip s i)) as [A [B [C D]]].
  rewrite A, B, C, D. cbv zeta.
  destruct (skip _); repeat split.
Qed.

Lemma plant_ivt_frame2 (P : platform) (skip : Z -> bool) (s : server) :
  sent (plant_ivt P skip s) = sent s /\ mpHash (plant_ivt P skip s) = mpHash s.
Proof.
  destruct (plant_fold_frame2 skip (seq 1 (Z.to_nat (ATDSP_NUM_ENTRIES_IN_IVT P) - 1)) s)
    as [A [B _]]. split; [exact A | exact B].
Qed.

(** [restoreIVT] undoes every change made to the IVT since the
    matching [saveIVT]: if the save buffer still holds what [saveIVT] read
    and memory outside the IVT is as it was then, all of memory is back to
    its state at the save. *)
Theorem restoreIVT_after_saveIVT (P : platform) (s s1 : server) :
  fIVTSaveBuff s1 = fIVTSaveBuff (saveIVT P s) ->
  (forall x, x < 0 \/ Z.of_nat (ivt_bytes P) <= x ->
     mem (target s1) x = mem (target s) x) ->
  forall x, mem (target (restoreIVT s1)) x = mem (target s) x.
Proof.
  intros Hb Hout x.
  destruct (Z.ltb_spec x 0) as [Hx | Hx];
    [| destruct (Z.ltb_spec x (Z.of_nat (ivt_bytes P))) as [Hx' | Hx']].
  - unfold restoreIVT. cbn. rewrite write_burst_outside by lia. apply Hout. lia.
  - apply (restoreIVT_mem s1 (mem (target s)) (ivt_bytes P)); [exact Hb | lia].
  - unfold restoreIVT. cbn. rewrite write_burst_after.
    + apply Hout. lia.
    + rewrite Hb. cbn. rewrite length_read_burst. lia.
Qed.

(** A step request on a halted core in an exception state does not
    step: it reports the exception cause in a stop packet, marks the
    target as not running and leaves the core, the matchpoint table and
    the resume history unchanged. *)
Theorem rspStep_exception_state (P : platform) (redirect : Z -> server -> server)
    (run : core -> core) (addr : Z) (s : server) :
  halted (target s) = true ->
  fst (isTargetExceptionState P (status (target s)) TARGET_SIGNAL_NONE) = true ->
  let c := snd (isTargetExceptionState P (status (target s)) TARGET_SIGNAL_NONE) in
  exists s',
    rspStep P redirect run addr s = Some s' /\
    sent s' = sent s ++ [String "S" (String (hex2Char (c / 16))
                                       (String (hex2Char (c mod 16)) EmptyString))] /\
    fIsTargetRunning s' = false /\
    target s' = target s /\ mpHash s' = mpHash s /\ resumed s' = resumed s.
Proof.
  intros Hh Hex c. unfold c.
  destruct (isTargetExceptionState P (status (target s)) TARGET_SIGNAL_NONE)
    as [b e] eqn:E. cbn in Hex |- *. subst b.
  eexists. split.
  - unfold rspStep. rewrite Hh, E. reflexivity.
  - repeat split.
Qed.

(** A step request on a halted core stopped at IDLE, with no
    exception and no enabled pending interrupt (STATUS bit 1 set, or
    [~IMASK & ILAT == 0]), does not run the core: the PC is moved back by
    the 2 bytes of the breakpoint instruction, [S05] is sent, the target is
    marked not running, and memory, the matchpoint table and the resume
    history are unchanged. The step address is ignored. *)
Theorem rspStep_idle_quiet (P : platform) (redirect : Z -> server -> server)
    (run : core -> core) (addr : Z) (s : server) :
  halted (target s) = true ->
  fst (isTargetExceptionState P (status (target s)) TARGET_SIGNAL_NONE) = false ->
  getfield (readMem16 s (readPc s)) 8 0 = IDLE_OPCODE ->
  (getfield (status (target s)) 1 1 <> 0 \/
   Z.land (Z.lnot (imask (target s))) (ilat (target s)) = 0) ->
  exists s',
    rspStep P redirect run addr s = Some s' /\
    pc (target s') = u32 (pc (target s) - ATDSP_BKPT_INSTLEN) /\
    sent s' = sent s ++ ["S05"%string] /\ fIsTargetRunning s' = false /\
    mem (target s') = mem (target s) /\ mpHash s' = mpHash s /\
    resumed s' = resumed s.
Proof.
  intros Hh Hex Hidle Hc.
  destruct (isTargetExceptionState P (status (target s)) TARGET_SIGNAL_NONE)
    as [b e] eqn:E. cbn in Hex. subst b.
  assert (Hcond : (Z.eqb (getfield (status (target s)) 1 1) 0
                   && negb (Z.eqb (Z.land (Z.lnot (imask (target s))) (ilat (target s))) 0))
                  = false).
  { destruct Hc as [H | H].
    - rewrite (proj2 (Z.eqb_neq _ _) H). reflexivity.
    - rewrite H, andb_false_r. reflexivity. }
  eexists. split.
  - unfold rspStep. rewrite Hh, E. cbv zeta.
    rewrite (proj2 (Z.eqb_eq _ _) Hidle). rewrite Hcond. reflexivity.
  - cbn. unfold u32. rewrite Z.mod_mod by lia.
    repeat split.
Qed.

(** A step request on a halted core stopped at IDLE, with no
    exception, interrupts enabled (STATUS bit 1 clear) and an enabled
    pending interrupt ([~IMASK & ILAT != 0]), saves the IVT, resumes the
    core exactly once with BKPT in every vector entry 1 to N-1, restores
    the whole IVT after the halt, moves the PC at the halt back by 2 and
    sends [S05]; the matchpoint table is unchanged. *)
Theorem rspStep_idle_interrupt (P : platform) (redirect : Z -> server -> server)
    (run : core -> core) (addr : Z) (s s' : server) :
  rspStep P redirect run addr s = Some s' ->
  fst (isTargetExceptionState P (status (target s)) TARGET_SIGNAL_NONE) = false ->
  getfield (readMem16 s (readPc s)) 8 0 = IDLE_OPCODE ->
  getfield (status (target s)) 1 1 = 0 ->
  Z.land (Z.lnot (imask (target s))) (ilat (target s)) <> 0 ->
  exists c,
    resumed s' = resumed s ++ [c] /\
    (forall i, 1 <= i < ATDSP_NUM_ENTRIES_IN_IVT P ->
       read16 (mem c) (i * 4) = ATDSP_BKPT_INSTR) /\
    (forall x, 0 <= x < ATDSP_NUM_ENTRIES_IN_IVT P * 4 ->
       mem (target s') x = mem (target s) x) /\
    pc (target s') = u32 (pc (run c) - ATDSP_BKPT_INSTLEN) /\
    sent s' = sent s ++ ["S05"%string] /\ mpHash s' = mpHash s.
Proof.
  intros H Hex Hidle Hc1 Hc2.
  unfold rspStep in H.
  destruct (halted (target s)); cbn [negb] in H; [| discriminate H].
  destruct (isTargetExceptionState P (status (target s)) TARGET_SIGNAL_NONE)
    as [b e] eqn:E. cbn in Hex. subst b. cbv zeta in H.
  rewrite (proj2 (Z.eqb_eq _ _) Hidle), Hc1, (proj2 (Z.eqb_neq _ _) Hc2) in H.
  cbn [Z.eqb negb andb] in H.
  set (s5 := plant_ivt P (fun _ => false) (saveIVT P s)) in H.
  destruct (resume_and_wait run s5) as [s6 |] eqn:Hr; [| discriminate H].
  injection H as <-.
  destruct (resume_and_wait_spec run s5 s6 Hr) as [Hres6 Hbuf6].
  destruct (plant_ivt_frame P (fun _ => false) (saveIVT P s)) as [Hres5 Hbuf5].
  assert (H6 : s6 = set_target (run (target s5)) (targetResume s5)).
  { unfold resume_and_wait in Hr. cbn in Hr. destruct (halted (run (target s5)));
      congruence. }
  exists (target s5). split; [| split; [| split; [| split; [| split]]]].
  - cbn. rewrite Hres6. unfold s5 at 1. rewrite Hres5. reflexivity.
  - intros i Hi. unfold s5. apply plant_ivt_bkpt; [exact Hi | reflexivity].
  - intros x Hx. cbn [target rspReportException writePc set_target set_pc
                       set_running putPkt mem].
    change (mem (target (restoreIVT s6)) x = mem (target s) x).
    apply (restoreIVT_mem s6 (mem (target s)) (ivt_bytes P)).
    + rewrite Hbuf6. unfold s5. rewrite Hbuf5. reflexivity.
    + unfold ivt_bytes, ATDSP_INST32LEN. lia.
  - cbn. rewrite H6. cbn. unfold u32. rewrite Z.mod_mod by lia. reflexivity.
  - cbn. rewrite H6. cbn. unfold s5 at 1.
    rewrite (proj1 (plant_ivt_frame2 P (fun _ => false) (saveIVT P s))).
    reflexivity.
  - cbn. rewrite H6. cbn. unfold s5.
    rewrite (proj2 (plant_ivt_frame2 P (fun _ => false) (saveIVT P s))).
    reflexivity.
Qed.

(** ** Branch targets *)

Lemma setfield_add (x hi lo v : Z) :
  0 <= lo <= hi -> 0 <= x < 2 ^ lo -> 0 <= v < 2 ^ (hi - lo + 1) ->
  setfield x hi lo v = x + v * 2 ^ lo.
Proof.
  intros H Hx Hv.
  assert (Hs : setfield x hi lo v = Z.lor x (Z.shiftl v lo)).
  { unfold setfield. apply Z.bits_inj'. intros n Hn.
    rewrite !Z.lor_spec, Z.land_spec, Z.lnot_spec, !Z.shiftl_spec, Z.land_spec by lia.
    destruct (Z.ltb_spec n lo).
    - rewrite !(Z.testbit_neg_r _ (n - lo)) by lia. bits_bool.
    - rewrite (testbit_small x lo n) by lia.
      rewrite !Z.testbit_ones_nonneg by lia.
      destruct (Z.ltb_spec (n - lo) (hi - lo + 1)); [bits_bool |].
      rewrite (testbit_small v (hi - lo + 1) (n - lo)) by lia. bits_bool. }
  assert (Hl : Z.land x (Z.shiftl v lo) = 0).
  { apply Z.bits_inj'. intros n Hn. rewrite Z.land_spec, Z.shiftl_spec, Z.bits_0 by lia.
    destruct (Z.ltb_spec n lo).
    - rewrite (Z.testbit_neg_r _ (n - lo)) by lia. bits_bool.
    - rewrite (testbit_small x lo n) by lia. reflexivity. }
  rewrite Hs, <- Z.lxor_lor by exact Hl. rewrite <- Z.add_nocarry_lxor by exact Hl.
  rewrite Z.shiftl_mul_pow2 by lia. reflexivity.
Qed.

Lemma getfield_range (x hi lo : Z) :
  0 <= lo <= hi -> 0 <= getfield x hi lo < 2 ^ (hi - lo + 1).
Proof.
  intros H. rewrite getfield_div_mod by lia. apply Z.mod_pos_bound.
  apply Z.pow_pos_nonneg; lia.
Qed.

(** For a branch opcode (bits 2..0 zero), the jump target computed
    by the step engine is the PC plus twice the signed displacement: the
    8-bit field [op[15:8]] for a 16-bit branch, the 24-bit field
    [ext[15:0] op[15:8]] for a 32-bit one, taken modulo 2^32. *)
Theorem jump_target_branch (op ext pc_ bk : Z) (is32 : bool) (s : server) :
  getfield op 2 0 = 0 ->
  jump_target op ext pc_ bk is32 s =
  u32 (pc_ + 2 * (if is32 then
                    let v := getfield op 15 8 + 256 * getfield ext 15 0 in
                    if v <? 2 ^ 23 then v else v - 2 ^ 24
                  else
                    let v := getfield op 15 8 in
                    if v <? 128 then v else v - 256)).
Proof.
  intros Hb. unfold jump_target. rewrite Hb. cbn [Z.eqb].
  assert (H8 : getfield op 8 0 mod 8 = 0).
  { rewrite getfield_div_mod in Hb |- * by lia. cbn in Hb |- *.
    rewrite Z.div_1_r in Hb |- *. Z.div_mod_to_equations. lia. }
  destruct (Z.eqb_spec (getfield op 8 0) 0x1d2) as [E | _];
    [rewrite E in H8; discriminate H8 |].
  destruct (Z.eqb_spec (getfield op 8 0) 0x142) as [E | _];
    [rewrite E in H8; discriminate H8 |].
  destruct (Z.eqb_spec (getfield op 8 0) 0x152) as [E | _];
    [rewrite E in H8; discriminate H8 |].
  destruct (Z.eqb_spec (getfield op 8 0) 0x14f) as [E | _];
    [rewrite E in H8; discriminate H8 |].
  destruct (Z.eqb_spec (getfield op 8 0) 0x15f) as [E | _];
    [rewrite E in H8; discriminate H8 |].
  cbn [orb].
  pose proof (getfield_range op 15 8 ltac:(lia)) as Hg.
  pose proof (getfield_range ext 15 0 ltac:(lia)) as He.
  set (g := getfield op 15 8) in *. set (e := getfield ext 15 0) in *.
  change (2 ^ (15 - 8 + 1)) with 256 in Hg.
  change (2 ^ (15 - 0 + 1)) with 65536 in He.
  rewrite (setfield_add 0 7 0 g) by lia.
  replace (0 + g * 2 ^ 0) with g by (cbn; lia).
  unfold u32. destruct is32.
  - rewrite (setfield_add g 23 8 e) by (cbn; lia).
    rewrite getfield_div_mod by lia.
    change (2 ^ 8) with 256. change (2 ^ 23) with 8388608.
    change (2 ^ (23 - 23 + 1)) with 2.
    destruct (Z.ltb_spec (g + 256 * e) 8388608) as [Hv | Hv].
    + rewrite Z.div_small by lia. change (0 mod 2 =? 1) with false. cbv iota.
      f_equal. lia.
    + replace ((g + e * 256) / 8388608) with 1
        by (apply Z.div_unique with (g + e * 256 - 8388608); lia).
      change (1 mod 2 =? 1) with true. cbv iota.
      rewrite (setfield_add (g + e * 256) 31 24 255) by (cbn; lia).
      change (2 ^ 24) with 16777216. change (2 ^ 32) with 4294967296.
      replace (pc_ + (g + e * 256 + 255 * 16777216) * 2)
        with (pc_ + 2 * (g + 256 * e - 16777216) + 2 * 4294967296) by lia.
      apply Z.mod_add. lia.
  - rewrite getfield_div_mod by lia.
    change (2 ^ 7) with 128. change (2 ^ (7 - 7 + 1)) with 2.
    destruct (Z.ltb_spec g 128) as [Hv | Hv].
    + rewrite Z.div_small by lia. change (0 mod 2 =? 1) with false. cbv iota.
      f_equal. lia.
    + replace (g / 128) with 1 by (apply Z.div_unique with (g - 128); lia).
      change (1 mod 2 =? 1) with true. cbv iota.
      rewrite (setfield_add g 31 8 16777215) by (cbn; lia).
      change (2 ^ 8) with 256. change (2 ^ 32) with 4294967296.
      replace (pc_ + (g + 16777215 * 256) * 2)
        with (pc_ + 2 * (g - 256) + 2 * 4294967296) by lia.
      apply Z.mod_add. lia.
Qed.

(** ** Memory packets *)












(** ** Instances of the properties above *)

Lemma getfield_source_eq_witness :
  getfield_src 0xabcd 11 4 = getfield 0xabcd 11 4.
Proof. apply (getfield_source_eq 0xabcd 11 4); lia. Defined.

Lemma setfield_source_eq_witness :
  setfield_src 0xabcd 11 4 0x5a = setfield 0xabcd 11 4 0x5a.
Proof. apply (setfield_source_eq 0xabcd 11 4 0x5a); cbn; lia. Defined.

Lemma getfield_setfield_witness :
  getfield_src (setfield_src 0xff 7 4 5) 7 4 = 5 /\
  (3 < 4 \/ 7 < 0 ->
   getfield_src (setfield_src 0xff 7 4 5) 3 0 = getfield_src 0xff 3 0).
Proof. apply (getfield_setfield 0xff 7 4 5 3 0); cbn; lia. Defined.

Lemma rspReportException_stop_packet_witness :
  let s := mk_server (mk_core (fun _ => 0) (fun _ => 0) 0x100 0 0 0 0 true) ∅ true
                     [] [] EmptyString [] in
  let s' := rspReportException 0x100 0 0x1f s in
  exists h1 h2,
    sent s' = sent s ++ [String "S" (String h1 (String h2 EmptyString))] /\
    is_stop_packet (String "S" (String h1 (String h2 EmptyString))) = true /\
    hex_value h1 = Some (0x1f / 16) /\ hex_value h2 = Some (0x1f mod 16) /\
    fIsTargetRunning s' = false /\ target s' = target s /\ mpHash s' = mpHash s.
Proof. intros s. apply (rspReportException_stop_packet 0x100 0x1f s). lia. Defined.

Lemma matchpoint_unsupported_types_witness :
  let s := mk_server (mk_core (fun _ => 0) (fun _ => 0) 0 0 0 0 0 true) ∅ false
                     [] [] EmptyString [] in
  (1 <= 2 <= 4 ->
     rspInsertMatchpoint "Z2,100,4" s = putPkt EmptyString s /\
     rspRemoveMatchpoint "z2,100,4" s = putPkt EmptyString s) /\
  (5 <= 2 <= 9 ->
     rspInsertMatchpoint "Z2,100,4" s = putPkt "E01" s /\
     rspRemoveMatchpoint "z2,100,4" s = putPkt "E01" s) /\
  ((2 < 0 \/ 9 < 2) -> is_space "2" = false ->
     rspInsertMatchpoint "Z2,100,4" s = putPkt "E01" s /\
     rspRemoveMatchpoint "z2,100,4" s = putPkt "E01" s).
Proof.
  intros s.
  apply (matchpoint_unsupported_types "2" "4" "100" EmptyString s);
    [vm_compute; lia | discriminate | reflexivity | vm_compute; reflexivity].
Defined.

Lemma restoreIVT_after_saveIVT_witness :
  let P := mk_platform 8 2 3 4 in
  let m := fun x : Z => x mod 256 in
  let s := mk_server (mk_core m (fun _ => 0) 0x100 0 0 0 0 true) ∅ false
                     [] [] EmptyString [] in
  let s1 := set_target (set_mem (fun x => if (0 <=? x) && (x <? 32) then 0xa2 else m x)
                                (target (saveIVT P s))) (saveIVT P s) in
  mem (target s1) 5 = 0xa2 /\ mem (target (restoreIVT s1)) 5 = mem (target s) 5.
Proof.
  intros P m s s1. split; [reflexivity |].
  apply (restoreIVT_after_saveIVT P s s1); [reflexivity |].
  intros x Hx. cbn [target set_target set_mem mem s1 saveIVT set_ivt_buf s].
  change (Z.of_nat (ivt_bytes P)) with 32 in Hx.
  destruct (Z.leb_spec 0 x), (Z.ltb_spec x 32); cbn [andb]; try reflexivity; lia.
Defined.

Lemma rspStep_exception_state_witness :
  let P := mk_platform 8 2 3 4 in
  let s := mk_server (mk_core (fun _ => 0) (fun _ => 0) 0x200 0x20000 0 0 0 true) ∅ false
                     [] [] EmptyString [] in
  let c := snd (isTargetExceptionState P (status (target s)) TARGET_SIGNAL_NONE) in
  exists s',
    rspStep P (fun _ s => s) (fun c => c) 0x200 s = Some s' /\
    sent s' = sent s ++ [String "S" (String (hex2Char (c / 16))
                                       (String (hex2Char (c mod 16)) EmptyString))] /\
    fIsTargetRunning s' = false /\
    target s' = target s /\ mpHash s' = mpHash s /\ resumed s' = resumed s.
Proof.
  intros P s.
  apply (rspStep_exception_state P (fun _ s => s) (fun c => c) 0x200 s);
    [reflexivity | vm_compute; reflexivity].
Defined.

Lemma rspStep_idle_quiet_witness :
  let P := mk_platform 8 2 3 4 in
  let m := fun x : Z => if x =? 0x200 then 0xb2 else if x =? 0x201 then 0x01 else 0 in
  let s := mk_server (mk_core m (fun _ => 0) 0x200 2 0 1 0 true) ∅ false
                     [] [] EmptyString [] in
  exists s',
    rspStep P (fun _ s => s) (fun c => set_pc 0x204 c) 0x200 s = Some s' /\
    pc (target s') = u32 (pc (target s) - ATDSP_BKPT_INSTLEN) /\
    sent s' = sent s ++ ["S05"%string] /\ fIsTargetRunning s' = false /\
    mem (target s') = mem (target s) /\ mpHash s' = mpHash s /\
    resumed s' = resumed s.
Proof.
  intros P m s.
  apply (rspStep_idle_quiet P (fun _ s => s) (fun c => set_pc 0x204 c) 0x200 s);
    [reflexivity | vm_compute; reflexivity | vm_compute; reflexivity
    | left; vm_compute; discriminate].
Defined.

Lemma rspStep_idle_interrupt_witness :
  let P := mk_platform 8 2 3 4 in
  let m := fun x : Z => if x =? 0x200 then 0xb2 else if x =? 0x201 then 0x01 else 0 in
  let s := mk_server (mk_core m (fun _ => 0) 0x200 0 0 1 0 true) ∅ false
                     [] [] EmptyString [] in
  let run := fun c => set_pc 0x24 c in
  match rspStep P (fun _ s => s) run 0x200 s with
  | Some s' =>
      exists c,
        resumed s' = resumed s ++ [c] /\
        (forall i, 1 <= i < ATDSP_NUM_ENTRIES_IN_IVT P ->
           read16 (mem c) (i * 4) = ATDSP_BKPT_INSTR) /\
        (forall x, 0 <= x < ATDSP_NUM_ENTRIES_IN_IVT P * 4 ->
           mem (target s') x = mem (target s) x) /\
        pc (target s') = u32 (pc (run c) - ATDSP_BKPT_INSTLEN) /\
        sent s' = sent s ++ ["S05"%string] /\ mpHash s' = mpHash s
  | None => False
  end.
Proof.
  intros P m s run.
  destruct (rspStep P (fun _ s => s) run 0x200 s) as [s' |] eqn:E.
  - apply (rspStep_idle_interrupt P (fun _ s => s) run 0x200 s s' E);
      vm_compute; [reflexivity | reflexivity | reflexivity | discriminate].
  - vm_compute in E. discriminate E.
Defined.

Lemma jump_target_branch_witness :
  let s := mk_server (mk_core (fun _ => 0) (fun _ => 0) 0x200 0 0 0 0 true) ∅ false
                     [] [] EmptyString [] in
  jump_target 0xfe00 0 0x200 0x202 false s =
  u32 (0x200 + 2 * (let v := getfield 0xfe00 15 8 in if v <? 128 then v else v - 256)).
Proof. intros s. apply (jump_target_branch 0xfe00 0 0x200 0x202 false s). reflexivity. Defined.



End GdbProofs.
